(** * Redmine MCP server: credential resolver, REST client and tool registry

    A shallow embedding of [src/redmine/client.ts] (class [RedmineClient])
    and of the tool module ([getHeaderValue], [getClientFromExtra],
    [registerRedmineTools]).

    Conventions of the embedding.
    - A JavaScript string is modelled by the sequence of its UTF-8 bytes
      (Rocq's [string]); the query serializer of [URLSearchParams] encodes
      exactly these bytes. A string with an unpaired surrogate has no such
      sequence and is outside the model.
    - A JavaScript number is a safe integer, rendered in decimal, or any
      other number (a fraction, a magnitude of 2^53 or more, [NaN], an
      infinity), which is given by the text that [String(n)] produces for
      it, such as [1.5] or [1e+21].
    - [throw]/[try]/[catch] are modelled by a result type, the network by a
      log of the requests issued so far and a function giving the outcome
      of [fetch] for a request after a given history. *)

From Stdlib Require Import ZArith String Ascii List DecimalString Bool Lia.
From stdpp Require Import base gmap strings list.

Set Warnings "-register-all".

(** ** Strings *)

#[global] Arguments String.append !s1 s2 : simpl nomatch.

Module Str.

(** [contains s t]: [t] occurs in [s] as a contiguous substring. *)
Definition contains (s t : string) : Prop :=
  exists pre post : string, s = pre +:+ t +:+ post.

(** [occurs c s]: the character [c] occurs in [s]. *)
Fixpoint occurs (c : ascii) (s : string) : bool :=
  match s with
  | EmptyString => false
  | String x s' => Ascii.eqb x c || occurs c s'
  end.

(** Cut a string at the first occurrence of [sep]. *)
Fixpoint break_at (sep : ascii) (s : string) : string * option string :=
  match s with
  | EmptyString => (EmptyString, None)
  | String c s' =>
      if Ascii.eqb c sep then (EmptyString, Some s')
      else let '(a, b) := break_at sep s' in (String c a, b)
  end.

(** All the pieces of a string between occurrences of [sep]. *)
Fixpoint split_on (sep : ascii) (s : string) : list string :=
  match s with
  | EmptyString => [EmptyString]
  | String c s' =>
      if Ascii.eqb c sep then EmptyString :: split_on sep s'
      else match split_on sep s' with
           | [] => [String c EmptyString]
           | h :: t => String c h :: t
           end
  end.

(** [Array.prototype.join] with a one-character separator. *)
Fixpoint join (sep : ascii) (l : list string) : string :=
  match l with
  | [] => EmptyString
  | [x] => x
  | x :: rest => x +:+ String sep (join sep rest)
  end.

End Str.

(** ** JavaScript numbers *)

(** Every character of a string passes a test. *)
Fixpoint all_chars (test : ascii -> bool) (s : string) : bool :=
  match s with
  | EmptyString => true
  | String c s' => test c && all_chars test s'
  end.

(** The characters of a decimal rendering: digits and the minus sign. *)
Definition decimal_char (c : ascii) : bool :=
  let n := N_of_ascii c in
  ((n =? 45) || ((48 <=? n) && (n <=? 57)))%N.

(** The characters [Number.prototype.toString] writes: digits, the marks
    [- + .], the [e] of an exponent, and the letters of [NaN] and
    [Infinity]. *)
Definition number_char (c : ascii) : bool :=
  let n := N_of_ascii c in
  (decimal_char c
   || (n =? 43) || (n =? 46) || (n =? 101)
   || (n =? 78) || (n =? 97)
   || (n =? 73) || (n =? 110) || (n =? 102) || (n =? 105) || (n =? 116)
   || (n =? 121))%N.

(** [Number.isSafeInteger]: an integer of magnitude at most 2^53 - 1. *)
Definition safe_integer (n : Z) : bool :=
  (Z.abs n <=? 9007199254740991)%Z.

(** A number is a safe integer, or another number, known by the text that
    [String(n)] gives for it ([1.5], [1e+21], [NaN], ...). *)
Inductive number : Type :=
  | SafeInteger (n : Z) (safe : safe_integer n = true)
  | OtherNumber (rendering : string)
      (written : all_chars number_char rendering = true).

Definition zero : number := SafeInteger 0 eq_refl.

(** The decimal rendering of an integer. *)
Definition decimal (n : Z) : string :=
  NilZero.string_of_int (Z.to_int n).

(** ** JavaScript values *)

(** A value as [JSON.stringify] sees it; [JUndefined] is the value of an
    optional argument that was left out. *)
Inductive js_value : Type :=
  | JUndefined
  | JNull
  | JBool (b : bool)
  | JNum (n : number)
  | JStr (s : string)
  | JArr (l : list js_value)
  | JObj (fields : list (string * js_value)).

(** An argument declared [z.union([z.number(), z.string()])]. *)
Inductive num_or_str : Type :=
  | Num (n : number)
  | Str (s : string).

(** [String(n)], also the rendering of [n] inside a template literal: the
    decimal digits of a safe integer, and the text of any other number. *)
Definition String_number (n : number) : string :=
  match n with
  | SafeInteger n _ => decimal n
  | OtherNumber rendering _ => rendering
  end.

(** [String(v)], also the rendering of [v] inside a template literal. *)
Definition String_of (v : num_or_str) : string :=
  match v with
  | Num n => String_number n
  | Str s => s
  end.

Definition js_of_num_or_str (v : num_or_str) : js_value :=
  match v with
  | Num n => JNum n
  | Str s => JStr s
  end.

(** Truthiness of a string: only the empty string is falsy. *)
Definition truthy (s : string) : bool := negb (String.eqb s "").

(** Truthiness of [string | undefined]. *)
Definition truthy_opt (o : option string) : bool :=
  match o with
  | Some s => truthy s
  | None => false
  end.

(** ** [URLSearchParams] *)

Module URLSearchParams.

(** The list of name/value pairs, in insertion order. *)
Definition t : Type := list (string * string).

Definition empty : t := [].

(** [set name value]: overwrite the first pair called [name] and drop the
    others, or append a new pair. *)
Fixpoint set (q : t) (name value : string) : t :=
  match q with
  | [] => [(name, value)]
  | (k, v) :: q' =>
      if String.eqb k name
      then (name, value) :: List.filter (fun p => negb (String.eqb (fst p) name)) q'
      else (k, v) :: set q' name value
  end.

(** The application/x-www-form-urlencoded byte serializer: a space becomes
    [+], the bytes [* - . _], digits and ASCII letters stand for themselves,
    every other byte is written [%XX] in upper-case hexadecimal. *)
Definition hex_digit (n : N) : ascii :=
  ascii_of_N (if (n <? 10)%N then 48 + n else 55 + n)%N.

Definition percent_encode_byte (c : ascii) : string :=
  let n := N_of_ascii c in
  String "%" (String (hex_digit (n / 16)) (String (hex_digit (n mod 16)) "")).

Definition unreserved (c : ascii) : bool :=
  let n := N_of_ascii c in
  ((n =? 42) || (n =? 45) || (n =? 46) || (n =? 95)
   || ((48 <=? n) && (n <=? 57))
   || ((65 <=? n) && (n <=? 90))
   || ((97 <=? n) && (n <=? 122)))%N.

Definition serialize_byte (c : ascii) : string :=
  if Ascii.eqb c " " then "+"
  else if unreserved c then String c ""
  else percent_encode_byte c.

Fixpoint serialize_bytes (s : string) : string :=
  match s with
  | EmptyString => EmptyString
  | String c s' => serialize_byte c +:+ serialize_bytes s'
  end.

Definition serialize_pair (p : string * string) : string :=
  serialize_bytes (fst p) +:+ String "=" (serialize_bytes (snd p)).

(** [toString()]: the pairs, serialized, joined by [&]. *)
Definition toString (q : t) : string :=
  Str.join "&" (map serialize_pair q).

(** The application/x-www-form-urlencoded parser, by which a server reads a
    query string: cut at [&], skip empty pieces, cut each piece at its first
    [=], then decode [+] and [%XX] in the name and in the value. *)
Definition hex_value (c : ascii) : option N :=
  let n := N_of_ascii c in
  if ((48 <=? n) && (n <=? 57))%N then Some (n - 48)%N
  else if ((65 <=? n) && (n <=? 70))%N then Some (n - 55)%N
  else if ((97 <=? n) && (n <=? 102))%N then Some (n - 87)%N
  else None.

Fixpoint percent_decode (s : string) : string :=
  match s with
  | EmptyString => EmptyString
  | String c s' =>
      if Ascii.eqb c "+" then String " " (percent_decode s')
      else if Ascii.eqb c "%" then
        match s' with
        | String h1 (String h2 r) =>
            match hex_value h1, hex_value h2 with
            | Some a, Some b =>
                String (ascii_of_N (16 * a + b)) (percent_decode r)
            | _, _ => String c (percent_decode s')
            end
        | _ => String c (percent_decode s')
        end
      else String c (percent_decode s')
  end.

Definition parse_piece (piece : string) : option (string * string) :=
  match piece with
  | EmptyString => None
  | _ =>
      let '(name, value) := Str.break_at "=" piece in
      Some (percent_decode name, percent_decode (default EmptyString value))
  end.

Definition parse (query : string) : t :=
  omap parse_piece (Str.split_on "&" query).

End URLSearchParams.

(** The query part of a request path: the fragment, from the first [#] on,
    is cut off, and the query is what follows the first [?] of the rest. *)
Definition path_query (path : string) : string :=
  default EmptyString
    (snd (Str.break_at "?" (fst (Str.break_at "#" path)))).

(** The query parameters a server finds in a request path. *)
Definition query_params (path : string) : URLSearchParams.t :=
  URLSearchParams.parse (path_query path).

Definition query_param_names (path : string) : list string :=
  map fst (query_params path).

(** ** Exceptions, the network and the effect monad *)

(** What a [catch] clause can receive. *)
Inductive js_exn : Type :=
  | JsError (message : string)     (* an instance of [Error] *)
  | JsThrown (rendering : string). (* any other value [v]; [String(v)] *)

Inductive Result (A : Type) : Type :=
  | Ok (a : A)
  | Throw (e : js_exn).

Arguments Ok {A} a.
Arguments Throw {A} e.

(** The argument of [fetch]. *)
Record HttpRequest : Type := {
  req_url : string;
  req_method : string;
  req_headers : list (string * string);
  req_body : option string
}.

(** What [fetch] resolves to. The status is the integer status code, which
    a template literal writes in decimal. Header names are kept in lower
    case, as the [Headers] class does; reading the body may fail. *)
Record Response : Type := {
  status : Z;
  headers : gmap string string;
  resp_body : Result string
}.

(** [response.ok]: the status is in the range 200-299. *)
Definition ok (r : Response) : bool :=
  (200 <=? status r)%Z && (status r <=? 299)%Z.

Definition headers_get (r : Response) (name : string) : option string :=
  headers r !! name.

(** A computation that may issue requests and may throw: it starts from the
    log of the requests issued so far and returns the extended log. *)
Definition M (A : Type) : Type :=
  list HttpRequest -> Result A * list HttpRequest.

Definition ret {A : Type} (a : A) : M A := fun log => (Ok a, log).

Definition throw {A : Type} (e : js_exn) : M A := fun log => (Throw e, log).

Definition bind {A B : Type} (m : M A) (k : A -> M B) : M B :=
  fun log =>
    match m log with
    | (Ok a, log') => k a log'
    | (Throw e, log') => (Throw e, log')
    end.

Definition lift {A : Type} (r : Result A) : M A := fun log => (r, log).

Definition try_catch {A : Type} (m : M A) (handler : js_exn -> M A) : M A :=
  fun log =>
    match m log with
    | (Ok a, log') => (Ok a, log')
    | (Throw e, log') => handler e log'
    end.

Notation "'let*' x ':=' m 'in' k" := (bind m (fun x => k))
  (at level 10, x name, m at level 100, k at level 200).

(** ** Data of the client and of the tools *)

Record RedmineClient : Type := {
  baseUrl : string;
  apiKey : string
}.

(** The parameter object of [listProjects]. *)
Record ListProjectsParams : Type := {
  lp_offset : option number;
  lp_limit : option number;
  lp_include : option string
}.

(** The parameter object of [listIssues]. The four filters are declared [string] and
    receive what the tool passes, a number or a string; they go through
    [String(...)]. *)
Record ListIssuesParams : Type := {
  li_offset : option number;
  li_limit : option number;
  li_sort : option string;
  li_include : option string;
  li_project_id : option num_or_str;
  li_tracker_id : option num_or_str;
  li_status_id : option num_or_str;
  li_assigned_to_id : option num_or_str
}.

(** A header value: [string | string[] | undefined]. *)
Inductive header_value : Type :=
  | HUndefined
  | HString (s : string)
  | HArray (l : list string).

Record RequestInfo : Type := {
  ri_headers : option (gmap string header_value)
}.

Record Extra : Type := {
  requestInfo : option RequestInfo
}.

Record TextContent : Type := {
  type : string;
  text : string
}.

(** The envelope a tool returns; [isError] is absent on success. *)
Record ToolResponse : Type := {
  content : list TextContent;
  isError : option bool
}.

(** Arguments of the six tools, as their input schemas declare them. *)
Record ListProjectsArgs : Type := {
  lpa_offset : option number;
  lpa_limit : option number;
  lpa_include : option string
}.

Record GetProjectArgs : Type := {
  gpa_id : num_or_str;
  gpa_include : option string
}.

Record ListIssuesArgs : Type := {
  lia_project_id : option num_or_str;
  lia_status_id : option num_or_str;
  lia_assigned_to_id : option num_or_str;
  lia_tracker_id : option number;
  lia_offset : option number;
  lia_limit : option number;
  lia_sort : option string;
  lia_include : option string
}.

Record GetIssueArgs : Type := {
  gia_id : number;
  gia_include : option string
}.

Record CreateIssueArgs : Type := {
  cia_project_id : num_or_str;
  cia_subject : string;
  cia_description : option string;
  cia_tracker_id : option number;
  cia_status_id : option number;
  cia_priority_id : option number;
  cia_assigned_to_id : option number;
  cia_category_id : option number;
  cia_parent_issue_id : option number;
  cia_estimated_hours : option number;
  cia_start_date : option string;
  cia_due_date : option string
}.

Record UpdateIssueArgs : Type := {
  uia_id : number;
  uia_subject : option string;
  uia_description : option string;
  uia_tracker_id : option number;
  uia_status_id : option number;
  uia_priority_id : option number;
  uia_assigned_to_id : option number;
  uia_category_id : option number;
  uia_parent_issue_id : option number;
  uia_estimated_hours : option number;
  uia_start_date : option string;
  uia_due_date : option string;
  uia_done_ratio : option number;
  uia_notes : option string;
  uia_private_notes : option bool
}.

(** An invocation of one of the registered tools. *)
Inductive ToolCall : Type :=
  | list_projects (args : ListProjectsArgs)
  | get_project (args : GetProjectArgs)
  | list_issues (args : ListIssuesArgs)
  | get_issue (args : GetIssueArgs)
  | create_issue (args : CreateIssueArgs)
  | update_issue (args : UpdateIssueArgs).

(** Optional properties of an object literal. *)
Definition js_opt_num (o : option number) : js_value :=
  match o with Some n => JNum n | None => JUndefined end.

Definition js_opt_str (o : option string) : js_value :=
  match o with Some s => JStr s | None => JUndefined end.

Definition js_opt_bool (o : option bool) : js_value :=
  match o with Some b => JBool b | None => JUndefined end.

(** Truthiness of a value; the falsy numbers are the zeros, written [0],
    and [NaN]. *)
Definition js_truthy (v : js_value) : bool :=
  match v with
  | JUndefined | JNull => false
  | JBool b => b
  | JNum n =>
      negb (String.eqb (String_number n) "0"
            || String.eqb (String_number n) "NaN")
  | JStr s => truthy s
  | JArr _ | JObj _ => true
  end.

(** [s.replace(/\/$/, '')]: without the [m] flag [$] matches at the end of
    the input only, and a pattern without the [g] flag is replaced once. *)
Fixpoint replace_trailing_slash (s : string) : string :=
  match s with
  | EmptyString => EmptyString
  | String c s' =>
      match s' with
      | EmptyString => if Ascii.eqb c "/" then EmptyString else s
      | String _ _ => String c (replace_trailing_slash s')
      end
  end.

(** [new RedmineClient(baseUrl, apiKey)]. *)
Definition new_RedmineClient (baseUrl apiKey : string) : Result RedmineClient :=
  if negb (truthy baseUrl) then
    Throw (JsError "Redmine URL is not configured. Set x-redmine-url header.")
  else if negb (truthy apiKey) then
    Throw (JsError
      "Redmine API Key is not configured. Set x-redmine-api-key header.")
  else
    Ok {| baseUrl := replace_trailing_slash baseUrl; apiKey := apiKey |}.

(** ** Request paths *)

Definition listProjects_query (params : option ListProjectsParams)
  : URLSearchParams.t :=
  let query := URLSearchParams.empty in
  let query :=
    match params ≫= lp_offset with
    | Some offset => URLSearchParams.set query "offset" (String_number offset)
    | None => query
    end in
  let query :=
    match params ≫= lp_limit with
    | Some limit => URLSearchParams.set query "limit" (String_number limit)
    | None => query
    end in
  let query :=
    match params ≫= lp_include with
    | Some include =>
        if truthy include then URLSearchParams.set query "include" include
        else query
    | None => query
    end in
  query.

Definition listProjects_path (params : option ListProjectsParams) : string :=
  let query := listProjects_query params in
  let queryString := URLSearchParams.toString query in
  "/projects.json" +:+
    (if truthy queryString then "?" +:+ queryString else "").

Definition getProject_path (id : num_or_str) (include : option string)
  : string :=
  let query := URLSearchParams.empty in
  let query :=
    match include with
    | Some include =>
        if truthy include then URLSearchParams.set query "include" include
        else query
    | None => query
    end in
  let queryString := URLSearchParams.toString query in
  "/projects/" +:+ String_of id +:+ ".json" +:+
    (if truthy queryString then "?" +:+ queryString else "").

Definition listIssues_query (params : option ListIssuesParams)
  : URLSearchParams.t :=
  let query := URLSearchParams.empty in
  let query :=
    match params ≫= li_offset with
    | Some offset => URLSearchParams.set query "offset" (String_number offset)
    | None => query
    end in
  let query :=
    match params ≫= li_limit with
    | Some limit => URLSearchParams.set query "limit" (String_number limit)
    | None => query
    end in
  let query :=
    match params ≫= li_sort with
    | Some sort =>
        if truthy sort then URLSearchParams.set query "sort" sort else query
    | None => query
    end in
  let query :=
    match params ≫= li_include with
    | Some include =>
        if truthy include then URLSearchParams.set query "include" include
        else query
    | None => query
    end in
  let query :=
    match params ≫= li_project_id with
    | Some project_id =>
        URLSearchParams.set query "project_id" (String_of project_id)
    | None => query
    end in
  let query :=
    match params ≫= li_tracker_id with
    | Some tracker_id =>
        URLSearchParams.set query "tracker_id" (String_of tracker_id)
    | None => query
    end in
  let query :=
    match params ≫= li_status_id with
    | Some status_id =>
        URLSearchParams.set query "status_id" (String_of status_id)
    | None => query
    end in
  let query :=
    match params ≫= li_assigned_to_id with
    | Some assigned_to_id =>
        URLSearchParams.set query "assigned_to_id" (String_of assigned_to_id)
    | None => query
    end in
  query.

Definition listIssues_path (params : option ListIssuesParams) : string :=
  let query := listIssues_query params in
  let queryString := URLSearchParams.toString query in
  "/issues.json" +:+
    (if truthy queryString then "?" +:+ queryString else "").

Definition getIssue_path (id : number) (include : option string) : string :=
  let query := URLSearchParams.empty in
  let query :=
    match include with
    | Some include =>
        if truthy include then URLSearchParams.set query "include" include
        else query
    | None => query
    end in
  let queryString := URLSearchParams.toString query in
  "/issues/" +:+ String_number id +:+ ".json" +:+
    (if truthy queryString then "?" +:+ queryString else "").

Definition updateIssue_path (id : number) : string :=
  "/issues/" +:+ String_number id +:+ ".json".

(** [params?.[name]] for the parameter objects of the two list operations:
    the value the caller gave to the property [name], if any. *)
Definition listProjects_param (params : option ListProjectsParams)
    (name : string) : option js_value :=
  p ← params;
  if String.eqb name "offset" then JNum <$> lp_offset p
  else if String.eqb name "limit" then JNum <$> lp_limit p
  else if String.eqb name "include" then JStr <$> lp_include p
  else None.

Definition listIssues_param (params : option ListIssuesParams)
    (name : string) : option js_value :=
  p ← params;
  if String.eqb name "offset" then JNum <$> li_offset p
  else if String.eqb name "limit" then JNum <$> li_limit p
  else if String.eqb name "sort" then JStr <$> li_sort p
  else if String.eqb name "include" then JStr <$> li_include p
  else if String.eqb name "project_id" then
    js_of_num_or_str <$> li_project_id p
  else if String.eqb name "tracker_id" then
    js_of_num_or_str <$> li_tracker_id p
  else if String.eqb name "status_id" then
    js_of_num_or_str <$> li_status_id p
  else if String.eqb name "assigned_to_id" then
    js_of_num_or_str <$> li_assigned_to_id p
  else None.

(** A call of a list operation and the path it builds. *)
Inductive ListCall : Type :=
  | CallListProjects (params : option ListProjectsParams)
  | CallListIssues (params : option ListIssuesParams).

Definition list_call_param (c : ListCall) (name : string) : option js_value :=
  match c with
  | CallListProjects params => listProjects_param params name
  | CallListIssues params => listIssues_param params name
  end.

Definition list_call_path (c : ListCall) : string :=
  match c with
  | CallListProjects params => listProjects_path params
  | CallListIssues params => listIssues_path params
  end.

(** The pair a defined parameter contributes to a query, and none for an
    undefined one. *)
Definition query_param (name : string) (value : option string)
  : URLSearchParams.t :=
  match value with
  | Some v => [(name, v)]
  | None => []
  end.

(** A string argument that passes a truthiness test. *)
Definition if_truthy (o : option string) : option string :=
  match o with
  | Some s => if truthy s then Some s else None
  | None => None
  end.

(** ** The client and the tools, over a given environment *)

Section Server.

Set Default Proof Using "Type".

(** The built-ins the program calls and the network it talks to. *)
Variable JSON_stringify : js_value -> string.        (* [JSON.stringify(v)] *)
Variable JSON_stringify_pretty : js_value -> string. (* [JSON.stringify(v, null, 2)] *)
Variable JSON_parse : string -> Result js_value.     (* [JSON.parse(s)] *)

(** The outcome of [fetch] for a request, after the requests of the log. *)
Variable network : list HttpRequest -> HttpRequest -> Result Response.

Definition fetch (req : HttpRequest) : M Response :=
  fun log => (network log req, log ++ [req]).

(** [response.text()] and [response.json()]. *)
Definition response_text (r : Response) : M string :=
  lift (resp_body r).

Definition response_json (r : Response) : M js_value :=
  let* s := response_text r in lift (JSON_parse s).

(** The argument [RedmineClient.request] gives to [fetch]. *)
Definition build_request (this : RedmineClient) (method path : string)
    (body : js_value) : HttpRequest :=
  let url := baseUrl this +:+ path in
  let headers :=
    [("X-Redmine-API-Key", apiKey this);
     ("Content-Type", "application/json")] in
  {| req_url := url;
     req_method := method;
     req_headers := headers;
     req_body := if js_truthy body then Some (JSON_stringify body) else None |}.

(** [RedmineClient.request]. *)
Definition request (this : RedmineClient) (method path : string)
    (body : js_value) : M js_value :=
  let* response := fetch (build_request this method path body) in
  if negb (ok response) then
    let* errorText := response_text response in
    throw (JsError ("Redmine API error: " +:+ decimal (status response)
                    +:+ " - " +:+ errorText))
  else if (status response =? 204)%Z
          || bool_decide (headers_get response "content-length" = Some "0")
  then ret (JObj [])
  else response_json response.

Definition listProjects (this : RedmineClient)
    (params : option ListProjectsParams) : M js_value :=
  request this "GET" (listProjects_path params) JUndefined.

Definition getProject (this : RedmineClient) (id : num_or_str)
    (include : option string) : M js_value :=
  request this "GET" (getProject_path id include) JUndefined.

Definition listIssues (this : RedmineClient)
    (params : option ListIssuesParams) : M js_value :=
  request this "GET" (listIssues_path params) JUndefined.

Definition getIssue (this : RedmineClient) (id : number)
    (include : option string) : M js_value :=
  request this "GET" (getIssue_path id include) JUndefined.

Definition createIssue (this : RedmineClient) (params : js_value)
  : M js_value :=
  request this "POST" "/issues.json" (JObj [("issue", params)]).

Definition updateIssue (this : RedmineClient) (id : number)
    (params : js_value)
  : M js_value :=
  request this "PUT" (updateIssue_path id) (JObj [("issue", params)]).

(** *** Credential resolution *)

Definition getHeaderValue (headers : option (gmap string header_value))
    (key : string) : option string :=
  match headers with
  | None => None
  | Some headers =>
      match headers !! key with
      | Some (HArray value) => head value
      | Some (HString value) => Some value
      | Some HUndefined | None => None
      end
  end.

Definition getClientFromExtra (extra : Extra) : Result RedmineClient :=
  match requestInfo extra ≫= ri_headers with
  | None => Throw (JsError "Request headers not available")
  | Some headers =>
      let redmineUrl := getHeaderValue (Some headers) "x-redmine-url" in
      let redmineApiKey := getHeaderValue (Some headers) "x-redmine-api-key" in
      if negb (truthy_opt redmineUrl) || negb (truthy_opt redmineApiKey) then
        Throw (JsError
          ("Redmine configuration not found. " +:+
           "Set x-redmine-url and x-redmine-api-key headers in your request."))
      else
        new_RedmineClient (default "" redmineUrl) (default "" redmineApiKey)
  end.

(** *** Tool handlers *)

(** [error instanceof Error ? error.message : String(error)] *)
Definition error_message (error : js_exn) : string :=
  match error with
  | JsError message => message
  | JsThrown rendering => rendering
  end.

(** The two envelopes every handler returns. *)
Definition text_response (result : js_value) : ToolResponse :=
  {| content := [{| type := "text"; text := JSON_stringify_pretty result |}];
     isError := None |}.

Definition error_response (error : js_exn) : ToolResponse :=
  {| content := [{| type := "text";
                    text := "エラー: " +:+ error_message error |}];
     isError := Some true |}.

(** The [try] block of each handler, up to the client's result. *)
Definition list_projects_body (args : ListProjectsArgs) (extra : Extra)
  : M js_value :=
  let* client := lift (getClientFromExtra extra) in
  listProjects client
    (Some {| lp_offset := lpa_offset args;
             lp_limit := lpa_limit args;
             lp_include := lpa_include args |}).

Definition get_project_body (args : GetProjectArgs) (extra : Extra)
  : M js_value :=
  let* client := lift (getClientFromExtra extra) in
  getProject client (gpa_id args) (gpa_include args).

Definition list_issues_body (args : ListIssuesArgs) (extra : Extra)
  : M js_value :=
  let* client := lift (getClientFromExtra extra) in
  listIssues client
    (Some {| li_project_id := lia_project_id args;
             li_status_id := lia_status_id args;
             li_assigned_to_id := lia_assigned_to_id args;
             li_tracker_id := Num <$> lia_tracker_id args;
             li_offset := lia_offset args;
             li_limit := lia_limit args;
             li_sort := lia_sort args;
             li_include := lia_include args |}).

Definition get_issue_body (args : GetIssueArgs) (extra : Extra)
  : M js_value :=
  let* client := lift (getClientFromExtra extra) in
  getIssue client (gia_id args) (gia_include args).

Definition create_issue_body (args : CreateIssueArgs) (extra : Extra)
  : M js_value :=
  let* client := lift (getClientFromExtra extra) in
  createIssue client
    (JObj [("project_id", js_of_num_or_str (cia_project_id args));
           ("subject", JStr (cia_subject args));
           ("description", js_opt_str (cia_description args));
           ("tracker_id", js_opt_num (cia_tracker_id args));
           ("status_id", js_opt_num (cia_status_id args));
           ("priority_id", js_opt_num (cia_priority_id args));
           ("assigned_to_id", js_opt_num (cia_assigned_to_id args));
           ("category_id", js_opt_num (cia_category_id args));
           ("parent_issue_id", js_opt_num (cia_parent_issue_id args));
           ("estimated_hours", js_opt_num (cia_estimated_hours args));
           ("start_date", js_opt_str (cia_start_date args));
           ("due_date", js_opt_str (cia_due_date args))]).

(** [const { id, ...updateParams } = args]: the other properties of the
    arguments; one that was left out has the value [undefined], and
    [JSON.stringify] leaves such properties out of the text. *)
Definition updateParams (args : UpdateIssueArgs) : js_value :=
  JObj [("subject", js_opt_str (uia_subject args));
        ("description", js_opt_str (uia_description args));
        ("tracker_id", js_opt_num (uia_tracker_id args));
        ("status_id", js_opt_num (uia_status_id args));
        ("priority_id", js_opt_num (uia_priority_id args));
        ("assigned_to_id", js_opt_num (uia_assigned_to_id args));
        ("category_id", js_opt_num (uia_category_id args));
        ("parent_issue_id", js_opt_num (uia_parent_issue_id args));
        ("estimated_hours", js_opt_num (uia_estimated_hours args));
        ("start_date", js_opt_str (uia_start_date args));
        ("due_date", js_opt_str (uia_due_date args));
        ("done_ratio", js_opt_num (uia_done_ratio args));
        ("notes", js_opt_str (uia_notes args));
        ("private_notes", js_opt_bool (uia_private_notes args))].

Definition update_issue_body (args : UpdateIssueArgs) (extra : Extra)
  : M js_value :=
  let* client := lift (getClientFromExtra extra) in
  updateIssue client (uia_id args) (updateParams args).

(** What the [try] block of the handler of a call computes. *)
Definition tool_body (call : ToolCall) (extra : Extra) : M js_value :=
  match call with
  | list_projects args => list_projects_body args extra
  | get_project args => get_project_body args extra
  | list_issues args => list_issues_body args extra
  | get_issue args => get_issue_body args extra
  | create_issue args => create_issue_body args extra
  | update_issue args => update_issue_body args extra
  end.

(** [registerRedmineTools]: the handler registered for each tool. All six
    have the same shape, [try { ... return text } catch (error) { ... }]. *)
Definition registerRedmineTools (call : ToolCall) (extra : Extra)
  : M ToolResponse :=
  try_catch
    (let* result := tool_body call extra in ret (text_response result))
    (fun error => ret (error_response error)).

(** Modelled from the spec: the serving process, which is not among the
    sources, takes the invocations one after another; an exception leaving a
    handler would end it and leave the later invocations unserved. *)
Fixpoint serve (calls : list (ToolCall * Extra)) : M (list ToolResponse) :=
  match calls with
  | [] => ret []
  | (call, extra) :: rest =>
      let* response := registerRedmineTools call extra in
      let* responses := serve rest in
      ret (response :: responses)
  end.


(** *** Vocabulary of the properties *)

(** The [extra] of an invocation that carries the header mapping [h]. *)
Definition extra_with_headers (h : gmap string header_value) : Extra :=
  {| requestInfo := Some {| ri_headers := Some h |} |}.

(** A header is missing or empty: the mapping has no entry for it, or the
    entry is [undefined], the empty string, an empty list, or a list that
    starts with the empty string. *)
Definition missing_or_empty (v : option header_value) : bool :=
  match v with
  | None | Some HUndefined => true
  | Some (HString s) => negb (truthy s)
  | Some (HArray []) => true
  | Some (HArray (s :: _)) => negb (truthy s)
  end.

(** The credentials of an invocation cannot be resolved: no headers at all,
    or one of the two required headers missing or empty. *)
Definition credentials_unavailable (extra : Extra) : Prop :=
  match requestInfo extra ≫= ri_headers with
  | None => True
  | Some h =>
      missing_or_empty (h !! "x-redmine-url") = true
      \/ missing_or_empty (h !! "x-redmine-api-key") = true
  end.

(** The source has one error class, [Error]; a configuration error is an
    [Error] that carries one of its four configuration messages. *)
Definition ConfigurationError (e : js_exn) : Prop :=
  match e with
  | JsError message =>
      In message
        ["Request headers not available";
         "Redmine configuration not found. " +:+
         "Set x-redmine-url and x-redmine-api-key headers in your request.";
         "Redmine URL is not configured. Set x-redmine-url header.";
         "Redmine API Key is not configured. Set x-redmine-api-key header."]
  | JsThrown _ => False
  end.

(** A host name: not empty and without a slash. *)
Definition host_string (h : string) : bool :=
  truthy h && negb (Str.occurs "/" h).

Definition ends_with_slash (s : string) : bool :=
  match last (list_ascii_of_string s) with
  | Some c => Ascii.eqb c "/"
  | None => false
  end.

(** The query part of a built path: nothing for an empty query, else [?]
    and the serialized pairs. *)
Definition query_suffix (q : URLSearchParams.t) : string :=
  match q with
  | [] => ""
  | _ => "?" +:+ URLSearchParams.toString q
  end.

(** The request of the REST table: method, path under the base URL, the two
    headers, and the body when there is one. *)
Definition rest_call (this : RedmineClient) (method path : string)
    (body : option string) : HttpRequest :=
  {| req_url := baseUrl this +:+ path;
     req_method := method;
     req_headers := [("X-Redmine-API-Key", apiKey this);
                     ("Content-Type", "application/json")];
     req_body := body |}.

(** The method, the path and the body of the client call that the handler
    of an invocation makes, read off the six handlers. *)
Definition client_call (call : ToolCall) : string * string * js_value :=
  match call with
  | list_projects args =>
      ("GET",
       listProjects_path
         (Some {| lp_offset := lpa_offset args;
                  lp_limit := lpa_limit args;
                  lp_include := lpa_include args |}),
       JUndefined)
  | get_project args =>
      ("GET", getProject_path (gpa_id args) (gpa_include args), JUndefined)
  | list_issues args =>
      ("GET",
       listIssues_path
         (Some {| li_project_id := lia_project_id args;
                  li_status_id := lia_status_id args;
                  li_assigned_to_id := lia_assigned_to_id args;
                  li_tracker_id := Num <$> lia_tracker_id args;
                  li_offset := lia_offset args;
                  li_limit := lia_limit args;
                  li_sort := lia_sort args;
                  li_include := lia_include args |}),
       JUndefined)
  | get_issue args =>
      ("GET", getIssue_path (gia_id args) (gia_include args), JUndefined)
  | create_issue args =>
      ("POST", "/issues.json",
       JObj [("issue",
              JObj [("project_id", js_of_num_or_str (cia_project_id args));
                    ("subject", JStr (cia_subject args));
                    ("description", js_opt_str (cia_description args));
                    ("tracker_id", js_opt_num (cia_tracker_id args));
                    ("status_id", js_opt_num (cia_status_id args));
                    ("priority_id", js_opt_num (cia_priority_id args));
                    ("assigned_to_id", js_opt_num (cia_assigned_to_id args));
                    ("category_id", js_opt_num (cia_category_id args));
                    ("parent_issue_id",
                     js_opt_num (cia_parent_issue_id args));
                    ("estimated_hours",
                     js_opt_num (cia_estimated_hours args));
                    ("start_date", js_opt_str (cia_start_date args));
                    ("due_date", js_opt_str (cia_due_date args))])])
  | update_issue args =>
      ("PUT", updateIssue_path (uia_id args),
       JObj [("issue", updateParams args)])
  end.

(** The characters a built request path is made of: what the query
    serializer writes, and the delimiters [/ ? = &] of a path with a
    query. *)
Definition path_char (c : ascii) : bool :=
  let n := N_of_ascii c in
  URLSearchParams.unreserved c
  || ((n =? 43) || (n =? 37) || (n =? 47) || (n =? 63) || (n =? 61)
      || (n =? 38))%N.

(** The requests a computation has added to a log. *)
Definition issued {A : Type} (m : M A) (log : list HttpRequest)
  : list HttpRequest :=
  drop (length log) (snd (m log)).


(** *** A sample environment

    Concrete inputs on which the model runs: a Redmine that gives the same
    answer to every request, and an invocation with both credentials. The
    two printers are constant, no property depends on what they print. *)

Definition sample_stringify : js_value -> string := fun _ => "{}".

Definition sample_parse_failure : string -> Result js_value :=
  fun _ => Throw (JsError "Unexpected end of JSON input").

Definition answering (outcome : Result Response)
  : list HttpRequest -> HttpRequest -> Result Response :=
  fun _ _ => outcome.

Definition unprocessable : Response :=
  {| status := 422; headers := ∅; resp_body := Ok "Subject cannot be blank" |}.

Definition no_content : Response :=
  {| status := 204; headers := ∅; resp_body := Ok "" |}.

Definition sample_parse_as_string : string -> Result js_value :=
  fun s => Ok (JStr s).

Definition found : Response :=
  {| status := 200; headers := ∅; resp_body := Ok "[]" |}.

Definition sample_headers : gmap string header_value :=
  <["x-redmine-url" := HString "https://redmine.example.com/"]>
    (<["x-redmine-api-key" := HArray ["secret"; "other"]]> ∅).

Definition sample_extra : Extra := extra_with_headers sample_headers.

Definition sample_client : RedmineClient :=
  {| baseUrl := "https://redmine.example.com"; apiKey := "secret" |}.

Definition sample_get_issue : ToolCall :=
  get_issue {| gia_id := SafeInteger 7 eq_refl; gia_include := None |}.

Definition sample_get_issue_request : HttpRequest :=
  rest_call sample_client "GET" "/issues/7.json" None.

(** ** Facts about strings *)

Lemma append_nil_r (s : string) : s +:+ "" = s.
Proof. induction s as [|c s IH]; simpl; [reflexivity | now rewrite IH]. Qed.

Lemma append_assoc (a b c : string) : (a +:+ b) +:+ c = a +:+ (b +:+ c).
Proof. induction a as [|x a IH]; simpl; [reflexivity | now rewrite IH]. Qed.

Lemma contains_refl (s : string) : Str.contains s s.
Proof. exists "", "". simpl. now rewrite append_nil_r. Qed.

Lemma contains_prefix (p s t : string) :
  Str.contains s t -> Str.contains (p +:+ s) t.
Proof.
  intros (a & b & ->). exists (p +:+ a), b. now rewrite append_assoc.
Qed.

Lemma contains_suffix (s q t : string) :
  Str.contains s t -> Str.contains (s +:+ q) t.
Proof.
  intros (a & b & ->). exists a, (b +:+ q). now rewrite !append_assoc.
Qed.

Lemma occurs_append (c : ascii) (a b : string) :
  Str.occurs c (a +:+ b) = Str.occurs c a || Str.occurs c b.
Proof.
  induction a as [|x a IH]; simpl; [reflexivity |].
  rewrite IH. now rewrite orb_assoc.
Qed.

(** A string that contains [t] has every character of [t]. *)
Lemma contains_occurs (s t : string) (c : ascii) :
  Str.contains s t -> Str.occurs c t = true -> Str.occurs c s = true.
Proof.
  intros (pre & post & ->) Hc.
  rewrite !occurs_append, Hc. now rewrite orb_true_r.
Qed.

Lemma break_at_absent (sep : ascii) (a : string) :
  Str.occurs sep a = false -> Str.break_at sep a = (a, None).
Proof.
  induction a as [|c a IH]; simpl; [reflexivity |].
  intros H. apply orb_false_iff in H as [Hc Ha].
  rewrite Hc, (IH Ha). reflexivity.
Qed.

Lemma break_at_first (sep : ascii) (a b : string) :
  Str.occurs sep a = false ->
  Str.break_at sep (a +:+ String sep b) = (a, Some b).
Proof.
  induction a as [|c a IH]; simpl.
  - intros _. now rewrite Ascii.eqb_refl.
  - intros H. apply orb_false_iff in H as [Hc Ha].
    rewrite Hc, (IH Ha). reflexivity.
Qed.

Lemma split_on_absent (sep : ascii) (a : string) :
  Str.occurs sep a = false -> Str.split_on sep a = [a].
Proof.
  induction a as [|c a IH]; simpl; [reflexivity |].
  intros H. apply orb_false_iff in H as [Hc Ha].
  rewrite Hc, (IH Ha). reflexivity.
Qed.

Lemma split_on_first (sep : ascii) (a b : string) :
  Str.occurs sep a = false ->
  Str.split_on sep (a +:+ String sep b) = a :: Str.split_on sep b.
Proof.
  induction a as [|c a IH]; simpl.
  - intros _. now rewrite Ascii.eqb_refl.
  - intros H. apply orb_false_iff in H as [Hc Ha].
    rewrite Hc, (IH Ha). reflexivity.
Qed.

Lemma truthy_false (s : string) : truthy s = false <-> s = "".
Proof.
  unfold truthy. destruct s; simpl; split; intros H; congruence.
Qed.

(** ** The query serializer and the query parser are inverse *)

Ltac each_byte b := destruct b as [[] [] [] [] [] [] [] []].

Lemma serialize_byte_no_delimiter (b : ascii) :
  Str.occurs "&" (URLSearchParams.serialize_byte b) = false
  /\ Str.occurs "=" (URLSearchParams.serialize_byte b) = false
  /\ Str.occurs "#" (URLSearchParams.serialize_byte b) = false.
Proof. each_byte b; repeat split; vm_compute; reflexivity. Qed.

Lemma serialize_bytes_no_amp (s : string) :
  Str.occurs "&" (URLSearchParams.serialize_bytes s) = false.
Proof.
  induction s as [|b s IH]; simpl; [reflexivity |].
  rewrite occurs_append, IH.
  now rewrite (proj1 (serialize_byte_no_delimiter b)).
Qed.

Lemma serialize_bytes_no_eq (s : string) :
  Str.occurs "=" (URLSearchParams.serialize_bytes s) = false.
Proof.
  induction s as [|b s IH]; simpl; [reflexivity |].
  rewrite occurs_append, IH.
  now rewrite (proj1 (proj2 (serialize_byte_no_delimiter b))).
Qed.

Lemma serialize_bytes_no_hash (s : string) :
  Str.occurs "#" (URLSearchParams.serialize_bytes s) = false.
Proof.
  induction s as [|b s IH]; simpl; [reflexivity |].
  rewrite occurs_append, IH.
  now rewrite (proj2 (proj2 (serialize_byte_no_delimiter b))).
Qed.

Lemma percent_decode_serialize_byte (b : ascii) (rest : string) :
  URLSearchParams.percent_decode (URLSearchParams.serialize_byte b +:+ rest)
  = String b (URLSearchParams.percent_decode rest).
Proof. each_byte b; reflexivity. Qed.

Lemma percent_decode_serialize_bytes (s : string) :
  URLSearchParams.percent_decode (URLSearchParams.serialize_bytes s) = s.
Proof.
  induction s as [|b s IH]; simpl; [reflexivity |].
  now rewrite percent_decode_serialize_byte, IH.
Qed.

Lemma serialize_pair_no_amp (p : string * string) :
  Str.occurs "&" (URLSearchParams.serialize_pair p) = false.
Proof.
  unfold URLSearchParams.serialize_pair. rewrite occurs_append. simpl.
  now rewrite !serialize_bytes_no_amp.
Qed.

Lemma parse_piece_serialize_pair (p : string * string) :
  URLSearchParams.parse_piece (URLSearchParams.serialize_pair p) = Some p.
Proof.
  destruct p as [k v].
  unfold URLSearchParams.parse_piece, URLSearchParams.serialize_pair. simpl.
  rewrite (break_at_first "=" _ _ (serialize_bytes_no_eq k)).
  rewrite percent_decode_serialize_bytes.
  destruct (URLSearchParams.serialize_bytes k); simpl;
    now rewrite percent_decode_serialize_bytes.
Qed.

Lemma toString_no_hash (q : URLSearchParams.t) :
  Str.occurs "#" (URLSearchParams.toString q) = false.
Proof.
  unfold URLSearchParams.toString.
  induction q as [|p q IH]; [reflexivity |].
  assert (Hp : Str.occurs "#" (URLSearchParams.serialize_pair p) = false).
  { unfold URLSearchParams.serialize_pair. rewrite occurs_append. simpl.
    now rewrite !serialize_bytes_no_hash. }
  destruct q as [|p' q]; [exact Hp |].
  change (Str.join "&" (map URLSearchParams.serialize_pair (p :: p' :: q)))
    with (URLSearchParams.serialize_pair p +:+
          String "&" (Str.join "&"
                        (map URLSearchParams.serialize_pair (p' :: q)))).
  rewrite occurs_append, Hp. simpl. exact IH.
Qed.

(** Parsing the serialization of a list of pairs gives the list back. *)
Lemma parse_toString (q : URLSearchParams.t) :
  URLSearchParams.parse (URLSearchParams.toString q) = q.
Proof.
  unfold URLSearchParams.parse, URLSearchParams.toString.
  induction q as [|p q IH]; [reflexivity |].
  destruct q as [|p' q].
  - simpl. rewrite (split_on_absent _ _ (serialize_pair_no_amp p)). simpl.
    now rewrite parse_piece_serialize_pair.
  - change (Str.join "&" (map URLSearchParams.serialize_pair (p :: p' :: q)))
      with (URLSearchParams.serialize_pair p +:+
            String "&" (Str.join "&"
                          (map URLSearchParams.serialize_pair (p' :: q)))).
    rewrite (split_on_first _ _ _ (serialize_pair_no_amp p)).
    change (omap URLSearchParams.parse_piece (?x :: ?l))
      with (match URLSearchParams.parse_piece x with
            | Some y => y :: omap URLSearchParams.parse_piece l
            | None => omap URLSearchParams.parse_piece l
            end).
    now rewrite parse_piece_serialize_pair, IH.
Qed.

(** The parameters a server reads from a built path are the pairs of the
    query the path was built from. *)
Lemma query_params_built (prefix : string) (q : URLSearchParams.t) :
  Str.occurs "?" prefix = false ->
  Str.occurs "#" prefix = false ->
  query_params
    (prefix +:+ (if truthy (URLSearchParams.toString q)
                 then "?" +:+ URLSearchParams.toString q else ""))
  = q.
Proof.
  intros Hp Hh. unfold query_params, path_query.
  pose proof (toString_no_hash q) as Hq.
  destruct (URLSearchParams.toString q) as [|c s] eqn:E.
  - simpl. rewrite append_nil_r, (break_at_absent _ _ Hh). simpl.
    rewrite (break_at_absent _ _ Hp). simpl.
    rewrite <- (parse_toString q), E. reflexivity.
  - change (truthy (String c s)) with true. cbv iota.
    change ("?" +:+ String c s) with (String "?" (String c s)).
    rewrite (break_at_absent "#").
    + cbn [fst]. rewrite (break_at_first _ _ _ Hp). simpl.
      rewrite <- E. apply parse_toString.
    + rewrite occurs_append, Hh. simpl. exact Hq.
Qed.

(** ** The queries of the list operations *)

(** The query of [listProjects]: one pair for each parameter that passes its
    presence test, in the order of the tests. *)
Lemma listProjects_query_pairs (p : ListProjectsParams) :
  listProjects_query (Some p)
  = query_param "offset" (String_number <$> lp_offset p)
    ++ query_param "limit" (String_number <$> lp_limit p)
    ++ query_param "include" (if_truthy (lp_include p)).
Proof. destruct p as [[] [] [[|]|]]; reflexivity. Qed.

Lemma listIssues_query_pairs (p : ListIssuesParams) :
  listIssues_query (Some p)
  = query_param "offset" (String_number <$> li_offset p)
    ++ query_param "limit" (String_number <$> li_limit p)
    ++ query_param "sort" (if_truthy (li_sort p))
    ++ query_param "include" (if_truthy (li_include p))
    ++ query_param "project_id" (String_of <$> li_project_id p)
    ++ query_param "tracker_id" (String_of <$> li_tracker_id p)
    ++ query_param "status_id" (String_of <$> li_status_id p)
    ++ query_param "assigned_to_id" (String_of <$> li_assigned_to_id p).
Proof. destruct p as [[] [] [[|]|] [[|]|] [] [] [] []]; reflexivity. Qed.

Lemma query_params_listProjects (params : option ListProjectsParams) :
  query_params (listProjects_path params) = listProjects_query params.
Proof. apply (query_params_built "/projects.json"); reflexivity. Qed.

Lemma query_params_listIssues (params : option ListIssuesParams) :
  query_params (listIssues_path params) = listIssues_query params.
Proof. apply (query_params_built "/issues.json"); reflexivity. Qed.

Lemma query_param_name (k n : string) (o : option string) :
  In n (map fst (query_param k o)) -> n = k /\ o <> None.
Proof.
  destruct o as [v|]; simpl; [| intros []].
  intros [<- | []]. split; [reflexivity | discriminate].
Qed.

Ltac split_names H :=
  repeat (rewrite map_app in H; apply in_app_or in H as [H | H]).

(** C2. For the two list operations [listProjects] and [listIssues] and for
    every parameter name: when the caller left the parameter of that name
    undefined, the query string of the built request path has no parameter
    of that name at all, not even one with an empty value. *)
Theorem omitted_parameter_absent_from_query (c : ListCall) (name : string) :
  list_call_param c name = None ->
  ~ In name (query_param_names (list_call_path c)).
Proof.
  intros Hnone Hin. unfold query_param_names in Hin.
  destruct c as [[p|]|[p|]];
    unfold list_call_path in Hin; unfold list_call_param in Hnone.
  - rewrite query_params_listProjects, listProjects_query_pairs in Hin.
    unfold listProjects_param in Hnone. simpl in Hnone.
    split_names Hin; apply query_param_name in Hin as [-> Hdef];
      simpl in Hnone;
      [ destruct (lp_offset p) | destruct (lp_limit p)
      | destruct (lp_include p) ]; simpl in Hnone, Hdef;
      (discriminate Hnone || now apply Hdef).
  - rewrite query_params_listProjects in Hin. exact Hin.
  - rewrite query_params_listIssues, listIssues_query_pairs in Hin.
    unfold listIssues_param in Hnone. simpl in Hnone.
    split_names Hin; apply query_param_name in Hin as [-> Hdef];
      simpl in Hnone;
      [ destruct (li_offset p) | destruct (li_limit p)
      | destruct (li_sort p) | destruct (li_include p)
      | destruct (li_project_id p) | destruct (li_tracker_id p)
      | destruct (li_status_id p) | destruct (li_assigned_to_id p) ];
      simpl in Hnone, Hdef; (discriminate Hnone || now apply Hdef).
  - rewrite query_params_listIssues in Hin. exact Hin.
Qed.

Lemma toString_empty (q : URLSearchParams.t) :
  URLSearchParams.toString q = "" -> q = [].
Proof. intros E. rewrite <- (parse_toString q), E. reflexivity. Qed.

Lemma query_suffix_built (q : URLSearchParams.t) :
  (if truthy (URLSearchParams.toString q)
   then "?" +:+ URLSearchParams.toString q else "")
  = query_suffix q.
Proof.
  destruct q as [|p q]; [reflexivity |]. unfold query_suffix.
  destruct (URLSearchParams.toString (p :: q)) eqn:E; [| reflexivity].
  apply toString_empty in E. discriminate.
Qed.

(** C10. Absent and empty/zero optional values are not treated alike. An
    [offset] or [limit] equal to 0 is sent ([listProjects] and [listIssues]
    test it with [!== undefined]), so the query holds the pair [offset=0] or
    [limit=0]; a [sort] or [include] equal to the empty string is dropped
    (tested by truthiness), so the path is the path built with the argument
    left out, in [listProjects], [listIssues], [getProject] and [getIssue]. *)
Theorem zero_is_sent_empty_string_is_dropped :
  (forall limit include,
     In ("offset", "0")
        (query_params (listProjects_path
           (Some {| lp_offset := Some zero; lp_limit := limit;
                    lp_include := include |}))))
  /\ (forall offset include,
        In ("limit", "0")
           (query_params (listProjects_path
              (Some {| lp_offset := offset; lp_limit := Some zero;
                       lp_include := include |}))))
  /\ (forall limit sort include project_id tracker_id status_id assigned_to_id,
        In ("offset", "0")
           (query_params (listIssues_path
              (Some {| li_offset := Some zero; li_limit := limit;
                       li_sort := sort; li_include := include;
                       li_project_id := project_id;
                       li_tracker_id := tracker_id;
                       li_status_id := status_id;
                       li_assigned_to_id := assigned_to_id |}))))
  /\ (forall offset sort include project_id tracker_id status_id assigned_to_id,
        In ("limit", "0")
           (query_params (listIssues_path
              (Some {| li_offset := offset; li_limit := Some zero;
                       li_sort := sort; li_include := include;
                       li_project_id := project_id;
                       li_tracker_id := tracker_id;
                       li_status_id := status_id;
                       li_assigned_to_id := assigned_to_id |}))))
  /\ listProjects_path
       (Some {| lp_offset := Some zero; lp_limit := Some zero;
                lp_include := Some "" |})
     = "/projects.json?offset=0&limit=0"
  /\ (forall offset limit,
        listProjects_path
          (Some {| lp_offset := offset; lp_limit := limit;
                   lp_include := Some "" |})
        = listProjects_path
            (Some {| lp_offset := offset; lp_limit := limit;
                     lp_include := None |}))
  /\ (forall offset limit include project_id tracker_id status_id
             assigned_to_id,
        listIssues_path
          (Some {| li_offset := offset; li_limit := limit;
                   li_sort := Some ""; li_include := include;
                   li_project_id := project_id; li_tracker_id := tracker_id;
                   li_status_id := status_id;
                   li_assigned_to_id := assigned_to_id |})
        = listIssues_path
            (Some {| li_offset := offset; li_limit := limit;
                     li_sort := None; li_include := include;
                     li_project_id := project_id;
                     li_tracker_id := tracker_id;
                     li_status_id := status_id;
                     li_assigned_to_id := assigned_to_id |}))
  /\ (forall offset limit sort project_id tracker_id status_id assigned_to_id,
        listIssues_path
          (Some {| li_offset := offset; li_limit := limit;
                   li_sort := sort; li_include := Some "";
                   li_project_id := project_id; li_tracker_id := tracker_id;
                   li_status_id := status_id;
                   li_assigned_to_id := assigned_to_id |})
        = listIssues_path
            (Some {| li_offset := offset; li_limit := limit;
                     li_sort := sort; li_include := None;
                     li_project_id := project_id;
                     li_tracker_id := tracker_id;
                     li_status_id := status_id;
                     li_assigned_to_id := assigned_to_id |}))
  /\ (forall id, getProject_path id (Some "") = getProject_path id None)
  /\ (forall id, getIssue_path id (Some "") = getIssue_path id None).
Proof.
  repeat split; intros;
    try reflexivity;
    rewrite ?query_params_listProjects, ?query_params_listIssues,
      ?listProjects_query_pairs, ?listIssues_query_pairs; simpl;
    repeat (apply in_or_app; (left; left; reflexivity) || right);
    left; reflexivity.
Qed.

(** ** Facts about [request] *)

(** Whatever the outcome, [request] issues exactly one request. *)
Lemma request_log (this : RedmineClient) (method path : string)
    (body : js_value) (log : list HttpRequest) :
  snd (request this method path body log)
  = log ++ [build_request this method path body].
Proof.
  unfold request, bind, fetch, response_json, response_text, lift, throw, ret,
    bind.
  destruct (network log (build_request this method path body)) as [r|e];
    [| reflexivity].
  destruct (negb (ok r)).
  - destruct (resp_body r); reflexivity.
  - destruct (_ || _); [reflexivity |].
    destruct (resp_body r); reflexivity.
Qed.

Lemma request_not_ok (this : RedmineClient) (method path : string)
    (body : js_value) (log : list HttpRequest) (response : Response)
    (errorText : string) :
  network log (build_request this method path body) = Ok response ->
  ok response = false ->
  resp_body response = Ok errorText ->
  request this method path body log
  = (Throw (JsError ("Redmine API error: "
                     +:+ decimal (status response)
                     +:+ " - " +:+ errorText)),
     log ++ [build_request this method path body]).
Proof.
  intros Hnet Hok Hbody.
  unfold request, bind, fetch, response_text, lift, throw.
  rewrite Hnet, Hok, Hbody. reflexivity.
Qed.

Lemma request_no_content (this : RedmineClient) (method path : string)
    (body : js_value) (log : list HttpRequest) (response : Response) :
  network log (build_request this method path body) = Ok response ->
  ok response = true ->
  status response = 204%Z
  \/ headers_get response "content-length" = Some "0" ->
  request this method path body log
  = (Ok (JObj []), log ++ [build_request this method path body]).
Proof.
  intros Hnet Hok Hempty.
  unfold request, bind, fetch, ret.
  rewrite Hnet, Hok. simpl.
  destruct Hempty as [-> | ->]; [reflexivity |].
  rewrite bool_decide_eq_true_2 by reflexivity.
  now rewrite orb_true_r.
Qed.

(** ** Facts about the normalization of the base URL *)

Lemma replace_trailing_slash_one (s : string) :
  replace_trailing_slash (s +:+ "/") = s.
Proof.
  induction s as [|c s IH]; [reflexivity |].
  change (String c s +:+ "/") with (String c (s +:+ "/")).
  simpl. rewrite IH. destruct s; reflexivity.
Qed.

Lemma ends_with_slash_cons (c : ascii) (s : string) :
  ends_with_slash (String c s)
  = match s with
    | EmptyString => Ascii.eqb c "/"
    | _ => ends_with_slash s
    end.
Proof. destruct s; reflexivity. Qed.

Lemma replace_trailing_slash_none (s : string) :
  ends_with_slash s = false -> replace_trailing_slash s = s.
Proof.
  induction s as [|c s IH]; [reflexivity |].
  rewrite ends_with_slash_cons. simpl. destruct s as [|d s].
  - now intros ->.
  - intros H. now rewrite (IH H).
Qed.

Lemma ends_with_slash_append (p s : string) :
  truthy s = true -> ends_with_slash (p +:+ s) = ends_with_slash s.
Proof.
  intros Hs. induction p as [|c p IH]; [reflexivity |].
  change (String c p +:+ s) with (String c (p +:+ s)).
  rewrite ends_with_slash_cons, IH.
  destruct p; [destruct s; [discriminate | reflexivity] | reflexivity].
Qed.

Lemma no_slash_no_trailing_slash (s : string) :
  Str.occurs "/" s = false -> ends_with_slash s = false.
Proof.
  induction s as [|c s IH]; [reflexivity |].
  simpl. intros H. apply orb_false_iff in H as [Hc Hs].
  rewrite ends_with_slash_cons. destruct s; [exact Hc | exact (IH Hs)].
Qed.

(** C4. The constructor strips exactly one trailing slash from the base
    URL, when there is one. So for every host name, the client built from
    [https://host/] and the client built from [https://host] are the same,
    and their requests for [/issues.json] go to [https://host/issues.json],
    with neither a doubled nor a dropped slash. *)
Theorem base_url_loses_one_trailing_slash (host key : string) :
  host_string host = true ->
  truthy key = true ->
  let client := {| baseUrl := "https://" +:+ host; apiKey := key |} in
  (forall s, replace_trailing_slash (s +:+ "/") = s)
  /\ (forall s, ends_with_slash s = false -> replace_trailing_slash s = s)
  /\ new_RedmineClient ("https://" +:+ host +:+ "/") key = Ok client
  /\ new_RedmineClient ("https://" +:+ host) key = Ok client
  /\ (forall log,
        map req_url (snd (listIssues client None log))
        = map req_url log ++ ["https://" +:+ host +:+ "/issues.json"])
  /\ (forall params log,
        map req_url (snd (createIssue client params log))
        = map req_url log ++ ["https://" +:+ host +:+ "/issues.json"]).
Proof.
  intros Hhost Hkey client.
  apply andb_true_iff in Hhost as [Hne Hslash].
  apply negb_true_iff in Hslash.
  split; [exact replace_trailing_slash_one |].
  split; [exact replace_trailing_slash_none |].
  assert (Hwith : truthy ("https://" +:+ host +:+ "/") = true)
    by reflexivity.
  assert (Hwithout : truthy ("https://" +:+ host) = true) by reflexivity.
  unfold new_RedmineClient. rewrite Hwith, Hwithout, Hkey.
  cbv [negb]. repeat split.
  - rewrite <- (append_assoc "https://" host "/").
    now rewrite replace_trailing_slash_one.
  - rewrite replace_trailing_slash_none; [reflexivity |].
    rewrite ends_with_slash_append by exact Hne.
    now apply no_slash_no_trailing_slash.
  - intros log. unfold listIssues. rewrite request_log, map_app.
    reflexivity.
  - intros params log. unfold createIssue. rewrite request_log, map_app.
    reflexivity.
Qed.

(** C7. Each client operation issues exactly one request, the one of the
    REST table: [listProjects] GET [/projects.json], [getProject] GET
    [/projects/{id}.json], [listIssues] GET [/issues.json], [getIssue] GET
    [/issues/{id}.json] (the GET paths followed by their query, if any),
    [createIssue] POST [/issues.json] and [updateIssue] PUT
    [/issues/{id}.json]. Every request has the headers [X-Redmine-API-Key],
    with the API key, and [Content-Type: application/json]; a GET has no
    body, a POST or PUT has the JSON text of [{issue: params}]. The [{id}]
    of a path is the identifier as a template literal writes it: [12] gives
    [/projects/12.json], [7] gives [/issues/7.json], [-3] gives
    [/issues/-3.json] and the number 1e21 gives [/issues/1e+21.json]. *)
Theorem operations_issue_the_tabulated_requests
    (this : RedmineClient) (log : list HttpRequest) :
  (forall params,
     snd (listProjects this params log)
     = log ++ [rest_call this "GET"
                 ("/projects.json" +:+ query_suffix (listProjects_query params))
                 None])
  /\ (forall id include,
        snd (getProject this id include log)
        = log ++ [rest_call this "GET"
                    ("/projects/" +:+ String_of id +:+ ".json" +:+
                     query_suffix (query_param "include" (if_truthy include)))
                    None])
  /\ (forall params,
        snd (listIssues this params log)
        = log ++ [rest_call this "GET"
                    ("/issues.json" +:+ query_suffix (listIssues_query params))
                    None])
  /\ (forall id include,
        snd (getIssue this id include log)
        = log ++ [rest_call this "GET"
                    ("/issues/" +:+ String_number id +:+ ".json" +:+
                     query_suffix (query_param "include" (if_truthy include)))
                    None])
  /\ (forall params,
        snd (createIssue this params log)
        = log ++ [rest_call this "POST" "/issues.json"
                    (Some (JSON_stringify (JObj [("issue", params)])))])
  /\ (forall id params,
        snd (updateIssue this id params log)
        = log ++ [rest_call this "PUT"
                    ("/issues/" +:+ String_number id +:+ ".json")
                    (Some (JSON_stringify (JObj [("issue", params)])))])
  /\ snd (getProject this (Num (SafeInteger 12 eq_refl)) None log)
     = log ++ [rest_call this "GET" "/projects/12.json" None]
  /\ snd (getProject this (Str "my-project") None log)
     = log ++ [rest_call this "GET" "/projects/my-project.json" None]
  /\ snd (getIssue this (SafeInteger 7 eq_refl) None log)
     = log ++ [rest_call this "GET" "/issues/7.json" None]
  /\ snd (getIssue this (SafeInteger (-3) eq_refl) None log)
     = log ++ [rest_call this "GET" "/issues/-3.json" None]
  /\ (forall params,
        snd (updateIssue this (OtherNumber "1e+21" eq_refl) params log)
        = log ++ [rest_call this "PUT" "/issues/1e+21.json"
                    (Some (JSON_stringify (JObj [("issue", params)])))]).
Proof.
  repeat split; intros.
  - unfold listProjects. rewrite request_log. unfold listProjects_path.
    cbv zeta. now rewrite query_suffix_built.
  - unfold getProject. rewrite request_log. unfold getProject_path.
    cbv zeta. rewrite query_suffix_built.
    destruct include as [[|c s]|]; reflexivity.
  - unfold listIssues. rewrite request_log. unfold listIssues_path.
    cbv zeta. now rewrite query_suffix_built.
  - unfold getIssue. rewrite request_log. unfold getIssue_path.
    cbv zeta. rewrite query_suffix_built.
    destruct include as [[|c s]|]; reflexivity.
  - unfold createIssue. now rewrite request_log.
  - unfold updateIssue. now rewrite request_log.
  - unfold getProject. now rewrite request_log.
  - unfold getProject. now rewrite request_log.
  - unfold getIssue. now rewrite request_log.
  - unfold getIssue. now rewrite request_log.
  - unfold updateIssue. now rewrite request_log.
Qed.

(** ** Facts about the handlers *)

(** With resolved credentials, the [try] block of a handler is one call of
    [request]. *)
Lemma tool_body_request (call : ToolCall) (extra : Extra)
    (client : RedmineClient) :
  getClientFromExtra extra = Ok client ->
  exists method path body, forall log,
    tool_body call extra log = request client method path body log.
Proof.
  intros Hc.
  destruct call; simpl;
    unfold list_projects_body, get_project_body, list_issues_body,
      get_issue_body, create_issue_body, update_issue_body, bind, lift;
    rewrite Hc;
    unfold listProjects, getProject, listIssues, getIssue, createIssue,
      updateIssue;
    do 3 eexists; intros log; reflexivity.
Qed.

(** Without them, it throws before it reaches the client. *)
Lemma tool_body_no_client (call : ToolCall) (extra : Extra) (e : js_exn)
    (log : list HttpRequest) :
  getClientFromExtra extra = Throw e ->
  tool_body call extra log = (Throw e, log).
Proof.
  intros Hc.
  destruct call; simpl;
    unfold list_projects_body, get_project_body, list_issues_body,
      get_issue_body, create_issue_body, update_issue_body, bind, lift;
    now rewrite Hc.
Qed.

(** A handler returns the text envelope of the result of its [try] block,
    or the error envelope of what the block threw. *)
Lemma handler_outcome (call : ToolCall) (extra : Extra)
    (log : list HttpRequest) :
  registerRedmineTools call extra log
  = match tool_body call extra log with
    | (Ok result, log') => (Ok (text_response result), log')
    | (Throw error, log') => (Ok (error_response error), log')
    end.
Proof.
  unfold registerRedmineTools, try_catch, bind, ret.
  destruct (tool_body call extra log) as [[result|error] log']; reflexivity.
Qed.

Lemma log_not_extended (log : list HttpRequest) (req : HttpRequest) :
  log <> log ++ [req].
Proof.
  intros H. apply (f_equal (@length _)) in H.
  rewrite length_app in H. simpl in H. lia.
Qed.

(** The request a handler has issued is the request of its client call. *)
Lemma handler_request (call : ToolCall) (extra : Extra)
    (log : list HttpRequest) (req : HttpRequest) :
  snd (registerRedmineTools call extra log) = log ++ [req] ->
  exists client method path body,
    getClientFromExtra extra = Ok client
    /\ req = build_request client method path body
    /\ forall log', tool_body call extra log'
                    = request client method path body log'.
Proof.
  intros Hlog. rewrite handler_outcome in Hlog.
  destruct (getClientFromExtra extra) as [client|e] eqn:Hc.
  - destruct (tool_body_request call extra client Hc)
      as (method & path & body & Hbody).
    exists client, method, path, body. repeat split; [| exact Hbody].
    rewrite Hbody in Hlog.
    pose proof (request_log client method path body log) as Hreq.
    destruct (request client method path body log) as [[r|e] log'];
      simpl in Hlog, Hreq; rewrite Hreq in Hlog;
      apply app_inv_head in Hlog; congruence.
  - rewrite (tool_body_no_client call extra e log Hc) in Hlog.
    simpl in Hlog. now apply log_not_extended in Hlog.
Qed.

(** C3, amended. When Redmine answers the request of a tool invocation with
    a status outside 200-299 and a body that can be read, as [errorText],
    the client call throws an [Error] whose message, [Redmine API error:
    <status> - <errorText>], contains the decimal status code and the raw
    body, and the handler returns an envelope with [isError: true] whose
    text contains that message. The condition on the body is needed: when
    reading the body fails, the client throws the error of the read. *)
Theorem non_2xx_response_becomes_error_envelope
    (call : ToolCall) (extra : Extra) (log : list HttpRequest)
    (req : HttpRequest) (response : Response) (errorText : string) :
  snd (registerRedmineTools call extra log) = log ++ [req] ->
  network log req = Ok response ->
  ok response = false ->
  resp_body response = Ok errorText ->
  let message :=
    "Redmine API error: " +:+ decimal (status response)
    +:+ " - " +:+ errorText in
  (forall this method path body,
     build_request this method path body = req ->
     request this method path body log
     = (Throw (JsError message), log ++ [req]))
  /\ tool_body call extra log = (Throw (JsError message), log ++ [req])
  /\ Str.contains message (decimal (status response))
  /\ Str.contains message errorText
  /\ exists text,
       registerRedmineTools call extra log
       = (Ok {| content := [{| type := "text"; text := text |}];
                isError := Some true |},
          log ++ [req])
       /\ Str.contains text message.
Proof.
  intros Hlog Hnet Hok Hbody message.
  assert (Hclient : forall this method path body,
             build_request this method path body = req ->
             request this method path body log
             = (Throw (JsError message), log ++ [req])).
  { intros this method path body <-. now apply request_not_ok. }
  destruct (handler_request call extra log req Hlog)
    as (client & method & path & body & Hc & Hreq & Htool).
  assert (Hthrow : tool_body call extra log
                   = (Throw (JsError message), log ++ [req])).
  { rewrite Htool. apply Hclient. now symmetry. }
  split; [exact Hclient |]. split; [exact Hthrow |].
  split.
  { exists "Redmine API error: ", (" - " +:+ errorText). reflexivity. }
  split.
  { exists ("Redmine API error: " +:+ decimal (status response)
            +:+ " - "), "".
    unfold message. now rewrite append_nil_r, !append_assoc. }
  exists ("エラー: " +:+ message). split.
  - rewrite handler_outcome, Hthrow. reflexivity.
  - apply contains_prefix, contains_refl.
Qed.

(** C5. When the request is answered with a success status and either the
    status is 204 or the [content-length] header is exactly [0], [request]
    returns the empty object. The body is not decoded: the result is the
    same whatever [JSON.parse] would do with the body, and even when the
    body cannot be read; the handler then returns the text of the empty
    object and no error. *)
Theorem no_content_response_gives_empty_object
    (this : RedmineClient) (method path : string) (body : js_value)
    (log : list HttpRequest) (response : Response) :
  network log (build_request this method path body) = Ok response ->
  ok response = true ->
  status response = 204%Z
  \/ headers_get response "content-length" = Some "0" ->
  request this method path body log
  = (Ok (JObj []), log ++ [build_request this method path body])
  /\ (forall call extra,
        snd (registerRedmineTools call extra log)
        = log ++ [build_request this method path body] ->
        registerRedmineTools call extra log
        = (Ok (text_response (JObj [])),
           log ++ [build_request this method path body])).
Proof.
  intros Hnet Hok Hempty. split.
  - now apply (request_no_content _ _ _ _ _ response).
  - intros call extra Hlog.
    destruct (handler_request call extra log _ Hlog)
      as (client & method' & path' & body' & Hc & Hreq & Htool).
    rewrite handler_outcome, Htool.
    rewrite Hreq in Hnet |- *.
    now rewrite (request_no_content _ _ _ _ _ _ Hnet Hok Hempty).
Qed.

Lemma serve_total (calls : list (ToolCall * Extra)) (log : list HttpRequest) :
  exists responses log',
    serve calls log = (Ok responses, log')
    /\ length responses = length calls.
Proof.
  revert log. induction calls as [|[call extra] calls IH]; intros log.
  - exists [], log. split; reflexivity.
  - simpl. unfold bind at 1. rewrite handler_outcome.
    destruct (tool_body call extra log) as [[result|error] log1];
      destruct (IH log1) as (responses & log2 & Hserve & Hlen);
      unfold bind, ret; rewrite Hserve;
      eexists (_ :: responses), log2; (split; [reflexivity |]);
      simpl; now rewrite Hlen.
Qed.

(** C6. No exception leaves a handler: each of the six handlers returns an
    envelope whatever happens inside it. When its [try] block throws, be it
    a configuration error, a network failure, a decode failure or a Redmine
    API error, the envelope has [isError: true] and a text that contains the
    message of the error. So a sequence of invocations is served to its
    end, one envelope for each invocation, whichever of them fail. *)
Theorem handler_errors_never_escape
    (call : ToolCall) (extra : Extra) (log : list HttpRequest) :
  (exists response log',
     registerRedmineTools call extra log = (Ok response, log'))
  /\ (forall error log',
        tool_body call extra log = (Throw error, log') ->
        exists text,
          registerRedmineTools call extra log
          = (Ok {| content := [{| type := "text"; text := text |}];
                   isError := Some true |},
             log')
          /\ Str.contains text (error_message error))
  /\ (forall calls,
        exists responses log',
          serve calls log = (Ok responses, log')
          /\ length responses = length calls).
Proof.
  split; [| split].
  - rewrite handler_outcome.
    destruct (tool_body call extra log) as [[result|error] log'];
      do 2 eexists; reflexivity.
  - intros error log' Hthrow.
    exists ("エラー: " +:+ error_message error). split.
    + rewrite handler_outcome, Hthrow. reflexivity.
    + apply contains_prefix, contains_refl.
  - intros calls. apply serve_total.
Qed.

(** ** Credential resolution *)

Lemma truthy_getHeaderValue (h : gmap string header_value) (key : string) :
  truthy_opt (getHeaderValue (Some h) key)
  = negb (missing_or_empty (h !! key)).
Proof.
  unfold getHeaderValue, missing_or_empty.
  destruct (h !! key) as [[|s|[|s l]]|]; simpl;
    rewrite ?negb_involutive; reflexivity.
Qed.

Lemma getClientFromExtra_unavailable (h : gmap string header_value) :
  missing_or_empty (h !! "x-redmine-url") = true
  \/ missing_or_empty (h !! "x-redmine-api-key") = true ->
  getClientFromExtra (extra_with_headers h)
  = Throw (JsError
      ("Redmine configuration not found. " +:+
       "Set x-redmine-url and x-redmine-api-key headers in your request.")).
Proof.
  intros H. unfold getClientFromExtra, extra_with_headers.
  cbn [requestInfo ri_headers mbind option_bind].
  rewrite !truthy_getHeaderValue, !negb_involutive.
  destruct H as [-> | ->]; [reflexivity | now rewrite orb_true_r].
Qed.

(** C1. When the headers of an invocation are unavailable, or one of
    [x-redmine-url] and [x-redmine-api-key] is missing or empty, credential
    resolution throws a configuration error, the handler turns it into its
    error envelope, and no request is issued: the log of requests is the
    one before the invocation. *)
Theorem unresolved_credentials_issue_no_request
    (call : ToolCall) (extra : Extra) (log : list HttpRequest) :
  credentials_unavailable extra ->
  exists error,
    getClientFromExtra extra = Throw error
    /\ ConfigurationError error
    /\ tool_body call extra log = (Throw error, log)
    /\ registerRedmineTools call extra log = (Ok (error_response error), log).
Proof.
  intros H.
  assert (Hthrow : exists error,
             getClientFromExtra extra = Throw error
             /\ ConfigurationError error).
  { destruct extra as [[[[h|]]|]]; unfold credentials_unavailable in H;
      cbn [requestInfo ri_headers mbind option_bind] in H.
    - eexists. split.
      + apply (getClientFromExtra_unavailable h H).
      + simpl. right. left. reflexivity.
    - eexists. split; [reflexivity | simpl; left; reflexivity].
    - eexists. split; [reflexivity | simpl; left; reflexivity]. }
  destruct Hthrow as (error & Hc & Hconf).
  exists error. repeat split; try assumption.
  - now apply tool_body_no_client.
  - rewrite handler_outcome. now rewrite (tool_body_no_client _ _ error).
Qed.

(** C8. For every header mapping and every key, [getHeaderValue] returns
    the first element of the value when the value is a list, and the value
    itself otherwise. In particular credentials given as lists resolve to
    the first URL and the first API key. *)
Theorem header_list_resolves_to_first_element
    (h : gmap string header_value) (key : string) :
  (forall l, h !! key = Some (HArray l) ->
             getHeaderValue (Some h) key = head l)
  /\ (forall v l, h !! key = Some (HArray (v :: l)) ->
                  getHeaderValue (Some h) key = Some v)
  /\ (forall s, h !! key = Some (HString s) ->
                getHeaderValue (Some h) key = Some s)
  /\ (h !! key = Some HUndefined \/ h !! key = None ->
      getHeaderValue (Some h) key = None)
  /\ (forall url urls k ks,
        truthy url = true -> truthy k = true ->
        getClientFromExtra
          (extra_with_headers
             (<["x-redmine-url" := HArray (url :: urls)]>
                (<["x-redmine-api-key" := HArray (k :: ks)]> h)))
        = new_RedmineClient url k).
Proof.
  unfold getHeaderValue. repeat split.
  - now intros l ->.
  - now intros v l ->.
  - now intros s ->.
  - now intros [-> | ->].
  - intros url urls k ks Hurl Hk.
    unfold getClientFromExtra, extra_with_headers, getHeaderValue.
    cbn [requestInfo ri_headers mbind option_bind].
    rewrite lookup_insert_eq.
    rewrite lookup_insert_ne by discriminate.
    rewrite lookup_insert_eq.
    simpl. now rewrite Hurl, Hk.
Qed.

(** C9. A required header whose value is the empty list resolves to no
    value, and the invocation fails as it does when the header is absent:
    the same configuration error, the same envelope, no request. *)
Theorem empty_list_header_is_an_absent_header
    (h : gmap string header_value) (key : string) (call : ToolCall)
    (log : list HttpRequest) :
  key = "x-redmine-url" \/ key = "x-redmine-api-key" ->
  let with_empty_list := extra_with_headers (<[key := HArray []]> h) in
  let without := extra_with_headers (delete key h) in
  let error :=
    JsError
      ("Redmine configuration not found. " +:+
       "Set x-redmine-url and x-redmine-api-key headers in your request.") in
  getHeaderValue (Some (<[key := HArray []]> h)) key = None
  /\ getHeaderValue (Some (delete key h)) key = None
  /\ getClientFromExtra with_empty_list = Throw error
  /\ getClientFromExtra without = Throw error
  /\ registerRedmineTools call with_empty_list log
     = (Ok (error_response error), log)
  /\ registerRedmineTools call without log
     = registerRedmineTools call with_empty_list log.
Proof.
  intros Hkey with_empty_list without error.
  assert (H1 : getHeaderValue (Some (<[key := HArray []]> h)) key = None).
  { unfold getHeaderValue. now rewrite lookup_insert_eq. }
  assert (H2 : getHeaderValue (Some (delete key h)) key = None).
  { unfold getHeaderValue. now rewrite lookup_delete_eq. }
  assert (H3 : getClientFromExtra with_empty_list = Throw error).
  { apply getClientFromExtra_unavailable.
    destruct Hkey as [-> | ->]; [left | right];
      now rewrite lookup_insert_eq. }
  assert (H4 : getClientFromExtra without = Throw error).
  { apply getClientFromExtra_unavailable.
    destruct Hkey as [-> | ->]; [left | right];
      now rewrite lookup_delete_eq. }
  repeat split; try assumption.
  - rewrite handler_outcome. now rewrite (tool_body_no_client _ _ error).
  - rewrite !handler_outcome.
    now rewrite !(tool_body_no_client _ _ error).
Qed.

(** ** Further properties: what a server reads from the built paths *)

Lemma all_chars_append (test : ascii -> bool) (a b : string) :
  all_chars test (a +:+ b) = all_chars test a && all_chars test b.
Proof.
  induction a as [|c a IH]; simpl; [reflexivity |].
  now rewrite IH, andb_assoc.
Qed.

Lemma all_chars_occurs (test : ascii -> bool) (c : ascii) (s : string) :
  all_chars test s = true -> test c = false -> Str.occurs c s = false.
Proof.
  intros Hs Hc. induction s as [|x s IH]; simpl; [reflexivity |].
  simpl in Hs. apply andb_true_iff in Hs as [Hx Hs].
  rewrite (IH Hs), orb_false_r.
  destruct (Ascii.eqb x c) eqn:E; [| reflexivity].
  apply Ascii.eqb_eq in E. subst x. rewrite Hx in Hc. discriminate.
Qed.

Lemma all_chars_weaken (P Q : ascii -> bool) (s : string) :
  (forall c, P c = true -> Q c = true) ->
  all_chars P s = true -> all_chars Q s = true.
Proof.
  intros HPQ. induction s as [|x s IH]; simpl; [reflexivity |].
  intros H. apply andb_true_iff in H as [Hx Hs].
  now rewrite (HPQ x Hx), (IH Hs).
Qed.

Lemma string_of_uint_decimal (d : Decimal.uint) :
  all_chars decimal_char (NilEmpty.string_of_uint d) = true.
Proof. induction d; simpl; [reflexivity | assumption ..]. Qed.

(** The decimal rendering is made of digits, after a minus sign for a
    negative integer. *)
Lemma decimal_chars (n : Z) : all_chars decimal_char (decimal n) = true.
Proof.
  unfold decimal, NilZero.string_of_int.
  destruct (Z.to_int n) as [d | d]; unfold NilZero.string_of_uint;
    destruct d; try reflexivity;
    simpl; apply string_of_uint_decimal.
Qed.

(** [String(n)] is written with the characters of a number. *)
Lemma String_number_chars (n : number) :
  all_chars number_char (String_number n) = true.
Proof.
  destruct n as [n safe | rendering written]; simpl; [| exact written].
  apply (all_chars_weaken decimal_char); [| apply decimal_chars].
  intros c. each_byte c; vm_compute; congruence.
Qed.

Lemma String_number_no_delimiter (n : number) :
  Str.occurs "?" (String_number n) = false
  /\ Str.occurs "#" (String_number n) = false.
Proof.
  split; apply (all_chars_occurs number_char);
    (apply String_number_chars || reflexivity).
Qed.

Lemma include_query (include : option string) :
  match include with
  | Some include =>
      if truthy include
      then URLSearchParams.set URLSearchParams.empty "include" include
      else URLSearchParams.empty
  | None => URLSearchParams.empty
  end
  = query_param "include" (if_truthy include).
Proof. destruct include as [[|c s]|]; reflexivity. Qed.

(** What [listProjects] sends is what a server reads: one parameter for each
    of [offset], [limit] and a non-empty [include], in this order, with the
    value the caller gave, whatever characters it is made of. *)
Theorem listProjects_query_read_back (params : option ListProjectsParams) :
  query_params (listProjects_path params)
  = match params with
    | Some p =>
        query_param "offset" (String_number <$> lp_offset p)
        ++ query_param "limit" (String_number <$> lp_limit p)
        ++ query_param "include" (if_truthy (lp_include p))
    | None => []
    end.
Proof.
  rewrite query_params_listProjects.
  destruct params as [p|]; [apply listProjects_query_pairs | reflexivity].
Qed.

(** The same for [listIssues] and its eight parameters. *)
Theorem listIssues_query_read_back (params : option ListIssuesParams) :
  query_params (listIssues_path params)
  = match params with
    | Some p =>
        query_param "offset" (String_number <$> li_offset p)
        ++ query_param "limit" (String_number <$> li_limit p)
        ++ query_param "sort" (if_truthy (li_sort p))
        ++ query_param "include" (if_truthy (li_include p))
        ++ query_param "project_id" (String_of <$> li_project_id p)
        ++ query_param "tracker_id" (String_of <$> li_tracker_id p)
        ++ query_param "status_id" (String_of <$> li_status_id p)
        ++ query_param "assigned_to_id" (String_of <$> li_assigned_to_id p)
    | None => []
    end.
Proof.
  rewrite query_params_listIssues.
  destruct params as [p|]; [apply listIssues_query_pairs | reflexivity].
Qed.

(** The path of [getIssue] carries the [include] argument as its only query
    parameter, when the argument is a non-empty string, and none otherwise;
    the number in the path adds nothing to the query. *)
Theorem getIssue_query_read_back (id : number) (include : option string) :
  query_params (getIssue_path id include)
  = query_param "include" (if_truthy include).
Proof.
  unfold getIssue_path. cbv zeta. rewrite include_query.
  rewrite <- !append_assoc.
  apply query_params_built; rewrite !occurs_append;
    [rewrite (proj1 (String_number_no_delimiter id))
    | rewrite (proj2 (String_number_no_delimiter id))]; reflexivity.
Qed.

(** The path of [getProject] does the same as long as the identifier has
    neither [?] nor [#]. *)
Theorem getProject_query_read_back (id : num_or_str)
    (include : option string) :
  Str.occurs "?" (String_of id) = false ->
  Str.occurs "#" (String_of id) = false ->
  query_params (getProject_path id include)
  = query_param "include" (if_truthy include).
Proof.
  intros Hq Hh. unfold getProject_path. cbv zeta. rewrite include_query.
  rewrite <- !append_assoc.
  apply query_params_built; rewrite !occurs_append;
    [rewrite Hq | rewrite Hh]; reflexivity.
Qed.

Lemma query_suffix_no_hash (q : URLSearchParams.t) :
  Str.occurs "#" (query_suffix q) = false.
Proof.
  destruct q as [|p q]; [reflexivity |]. unfold query_suffix.
  change ("?" +:+ ?x) with (String "?" x). simpl.
  apply toString_no_hash.
Qed.

(** [getProject] writes the identifier into the path as it is, without
    encoding it: when the identifier holds a [?], what follows it is read by
    the server as the beginning of the query, before [.json] and before the
    [include] parameter. *)
Theorem getProject_identifier_is_not_encoded
    (before after : string) (include : option string) :
  Str.occurs "?" before = false ->
  Str.occurs "#" before = false ->
  Str.occurs "#" after = false ->
  path_query (getProject_path (Str (before +:+ String "?" after)) include)
  = after +:+ ".json" +:+ query_suffix (query_param "include"
                                          (if_truthy include)).
Proof.
  intros Hq Hh Ha. unfold getProject_path. cbv zeta.
  rewrite include_query, query_suffix_built.
  set (suffix := query_suffix _).
  assert (Hs : Str.occurs "#" suffix = false) by apply query_suffix_no_hash.
  unfold path_query, String_of.
  rewrite (break_at_absent "#").
  - cbn [fst].
    replace ("/projects/" +:+ (before +:+ String "?" after) +:+ ".json"
             +:+ suffix)
      with (("/projects/" +:+ before)
            +:+ String "?" (after +:+ ".json" +:+ suffix)).
    + rewrite break_at_first; [reflexivity |].
      rewrite occurs_append, Hq. reflexivity.
    + now rewrite !append_assoc.
  - rewrite !occurs_append. simpl. rewrite Hh, Ha, Hs. reflexivity.
Qed.

(** ** Further properties: the characters of the built paths *)

Lemma serialize_byte_path_chars (b : ascii) :
  all_chars path_char (URLSearchParams.serialize_byte b) = true.
Proof. each_byte b; vm_compute; reflexivity. Qed.

Lemma serialize_bytes_path_chars (s : string) :
  all_chars path_char (URLSearchParams.serialize_bytes s) = true.
Proof.
  induction s as [|b s IH]; simpl; [reflexivity |].
  now rewrite all_chars_append, serialize_byte_path_chars, IH.
Qed.

Lemma toString_path_chars (q : URLSearchParams.t) :
  all_chars path_char (URLSearchParams.toString q) = true.
Proof.
  unfold URLSearchParams.toString.
  induction q as [|p q IH]; [reflexivity |].
  assert (Hp : all_chars path_char (URLSearchParams.serialize_pair p) = true).
  { unfold URLSearchParams.serialize_pair. rewrite all_chars_append. simpl.
    now rewrite !serialize_bytes_path_chars. }
  destruct q as [|p' q]; [exact Hp |].
  change (Str.join "&" (map URLSearchParams.serialize_pair (p :: p' :: q)))
    with (URLSearchParams.serialize_pair p +:+
          String "&" (Str.join "&"
                        (map URLSearchParams.serialize_pair (p' :: q)))).
  rewrite all_chars_append, Hp. simpl. exact IH.
Qed.

Lemma query_suffix_path_chars (q : URLSearchParams.t) :
  all_chars path_char (query_suffix q) = true.
Proof.
  destruct q as [|p q]; [reflexivity |]. unfold query_suffix.
  change ("?" +:+ ?x) with (String "?" x). simpl.
  apply toString_path_chars.
Qed.

Lemma String_number_path_chars (n : number) :
  all_chars path_char (String_number n) = true.
Proof.
  apply (all_chars_weaken number_char); [| apply String_number_chars].
  intros c. each_byte c; vm_compute; congruence.
Qed.

(** Whatever the arguments, the paths built by [listProjects], [listIssues],
    [getIssue] and [updateIssue] consist of letters, digits, the marks
    [* - . _ + %] and the delimiters [/ ? = &]: no space, no [#], no control
    character and no byte outside ASCII reaches the request line. *)
Theorem built_paths_have_only_path_characters :
  (forall params, all_chars path_char (listProjects_path params) = true)
  /\ (forall params, all_chars path_char (listIssues_path params) = true)
  /\ (forall id include,
        all_chars path_char (getIssue_path id include) = true)
  /\ (forall id, all_chars path_char (updateIssue_path id) = true).
Proof.
  repeat split; intros.
  - unfold listProjects_path. cbv zeta.
    rewrite query_suffix_built, all_chars_append, query_suffix_path_chars.
    reflexivity.
  - unfold listIssues_path. cbv zeta.
    rewrite query_suffix_built, all_chars_append, query_suffix_path_chars.
    reflexivity.
  - unfold getIssue_path. cbv zeta.
    rewrite query_suffix_built, !all_chars_append, query_suffix_path_chars,
      String_number_path_chars.
    reflexivity.
  - unfold updateIssue_path.
    rewrite !all_chars_append, String_number_path_chars. reflexivity.
Qed.

(** ** Further properties: the constructor *)

Lemma truthy_true (s : string) : truthy s = true <-> s <> "".
Proof.
  unfold truthy. destruct s; simpl; split; intros H; congruence.
Qed.

Lemma replace_trailing_slash_some (s : string) :
  ends_with_slash s = true -> s = replace_trailing_slash s +:+ "/".
Proof.
  induction s as [|c s IH]; [discriminate |].
  rewrite ends_with_slash_cons. simpl. destruct s as [|d s].
  - intros H. rewrite H. apply Ascii.eqb_eq in H. now subst c.
  - intros H. simpl. f_equal. exact (IH H).
Qed.

Lemma replace_trailing_slash_empty (s : string) :
  replace_trailing_slash s = "" <-> s = "" \/ s = "/".
Proof.
  destruct s as [|c [|d s]]; simpl.
  - split; [now left | reflexivity].
  - destruct (Ascii.eqb c "/") eqn:E.
    + apply Ascii.eqb_eq in E. subst c. split; [now right | reflexivity].
    + split; [discriminate |]. intros [H | H]; [discriminate |].
      injection H as ->. discriminate.
  - split; [discriminate |]. intros [H | H]; discriminate.
Qed.

(** The constructor builds a client exactly when both arguments are not
    empty. The client keeps the API key as given; its base URL is the given
    URL without its last character when that is a slash, and the given URL
    otherwise. When it fails, the message names the URL if the URL is empty,
    whatever the key, and the key otherwise. *)
Theorem constructor_accepts_non_empty_arguments
    (url key : string) (client : RedmineClient) :
  (new_RedmineClient url key = Ok client <->
   url <> "" /\ key <> "" /\ apiKey client = key
   /\ ((ends_with_slash url = true /\ url = baseUrl client +:+ "/")
       \/ (ends_with_slash url = false /\ url = baseUrl client)))
  /\ (url = "" ->
      new_RedmineClient url key
      = Throw (JsError
                 "Redmine URL is not configured. Set x-redmine-url header."))
  /\ (url <> "" -> key = "" ->
      new_RedmineClient url key
      = Throw (JsError
          "Redmine API Key is not configured. Set x-redmine-api-key header.")).
Proof.
  split; [| split].
  - unfold new_RedmineClient. split.
    + destruct (truthy url) eqn:Hu; [| discriminate].
      destruct (truthy key) eqn:Hk; [| discriminate].
      simpl. intros [= <-]. simpl.
      apply truthy_true in Hu, Hk.
      repeat split; try assumption.
      destruct (ends_with_slash url) eqn:He.
      * left. split; [reflexivity |]. now apply replace_trailing_slash_some.
      * right. split; [reflexivity |].
        symmetry. now apply replace_trailing_slash_none.
    + intros (Hu & Hk & Hkey & Hbase).
      apply truthy_true in Hu, Hk. rewrite Hu, Hk. simpl.
      destruct client as [b k]. simpl in Hkey, Hbase. subst k. f_equal.
      f_equal. destruct Hbase as [[_ ->] | [He ->]].
      * apply replace_trailing_slash_one.
      * now apply replace_trailing_slash_none.
  - intros ->. reflexivity.
  - intros Hu ->. unfold new_RedmineClient.
    apply truthy_true in Hu. now rewrite Hu.
Qed.

(** The guard of the constructor lets the URL [/] through, and only then is
    the base URL of the client empty; the requests of such a client go to
    the bare paths of the REST table. *)
Theorem base_url_is_empty_for_a_lone_slash
    (url key : string) (client : RedmineClient) :
  new_RedmineClient url key = Ok client ->
  (baseUrl client = "" <-> url = "/")
  /\ (url = "/" ->
      forall method path body,
        req_url (build_request client method path body) = path).
Proof.
  unfold new_RedmineClient.
  destruct (truthy url) eqn:Hu; [| discriminate].
  destruct (truthy key) eqn:Hk; [| discriminate].
  simpl. intros [= <-]. simpl.
  apply truthy_true in Hu.
  split.
  - rewrite replace_trailing_slash_empty. split.
    + intros [H | H]; [contradiction | exact H].
    + intros H. now right.
  - intros -> method path body. reflexivity.
Qed.

(** ** Further properties: credential resolution *)

Lemma getClientFromExtra_resolved (extra : Extra)
    (h : gmap string header_value) :
  requestInfo extra ≫= ri_headers = Some h ->
  getClientFromExtra extra
  = match getHeaderValue (Some h) "x-redmine-url",
          getHeaderValue (Some h) "x-redmine-api-key" with
    | Some url, Some key =>
        if truthy url && truthy key
        then Ok {| baseUrl := replace_trailing_slash url; apiKey := key |}
        else Throw (JsError
               ("Redmine configuration not found. " +:+
                "Set x-redmine-url and x-redmine-api-key headers in your request."))
    | _, _ =>
        Throw (JsError
          ("Redmine configuration not found. " +:+
           "Set x-redmine-url and x-redmine-api-key headers in your request."))
    end.
Proof.
  intros Hh. unfold getClientFromExtra. rewrite Hh.
  destruct (getHeaderValue (Some h) "x-redmine-url") as [url|];
    destruct (getHeaderValue (Some h) "x-redmine-api-key") as [key|];
    try reflexivity.
  - simpl. unfold new_RedmineClient.
    destruct (truthy url), (truthy key); reflexivity.
  - simpl. now rewrite orb_true_r.
Qed.

(** Credentials resolve exactly when the invocation has headers in which
    both [x-redmine-url] and [x-redmine-api-key] resolve to a non-empty
    string; the client then holds the URL without one trailing slash and
    the key. *)
Theorem credentials_resolve_iff (extra : Extra) (client : RedmineClient) :
  getClientFromExtra extra = Ok client <->
  exists h url key,
    requestInfo extra ≫= ri_headers = Some h
    /\ getHeaderValue (Some h) "x-redmine-url" = Some url
    /\ getHeaderValue (Some h) "x-redmine-api-key" = Some key
    /\ url <> "" /\ key <> ""
    /\ client = {| baseUrl := replace_trailing_slash url; apiKey := key |}.
Proof.
  split.
  - destruct (requestInfo extra ≫= ri_headers) as [h|] eqn:Hh.
    + rewrite (getClientFromExtra_resolved extra h Hh).
      destruct (getHeaderValue (Some h) "x-redmine-url") as [url|] eqn:Hurl;
        [| discriminate].
      destruct (getHeaderValue (Some h) "x-redmine-api-key") as [key|]
        eqn:Hkey; [| discriminate].
      destruct (truthy url) eqn:Hu; [| discriminate].
      destruct (truthy key) eqn:Hk; [| discriminate].
      simpl. intros [= <-]. apply truthy_true in Hu, Hk.
      exists h, url, key. repeat split; (assumption || reflexivity).
    + unfold getClientFromExtra. rewrite Hh. discriminate.
  - intros (h & url & key & Hh & Hurl & Hkey & Hu & Hk & ->).
    rewrite (getClientFromExtra_resolved extra h Hh), Hurl, Hkey.
    apply truthy_true in Hu, Hk. now rewrite Hu, Hk.
Qed.

(** Credential resolution fails in two ways only: without headers, with
    [Request headers not available]; with headers of which a required one
    is missing or empty, with [Redmine configuration not found ...]. The two
    messages of the constructor never come out of it: its guards are passed
    whenever the resolver reaches it. *)
Theorem resolver_errors_are_its_own (extra : Extra) (error : js_exn) :
  getClientFromExtra extra = Throw error ->
  (requestInfo extra ≫= ri_headers = None
   /\ error = JsError "Request headers not available")
  \/ (exists h,
        requestInfo extra ≫= ri_headers = Some h
        /\ (missing_or_empty (h !! "x-redmine-url") = true
            \/ missing_or_empty (h !! "x-redmine-api-key") = true)
        /\ error
           = JsError
               ("Redmine configuration not found. " +:+
                "Set x-redmine-url and x-redmine-api-key headers in your request.")).
Proof.
  destruct (requestInfo extra ≫= ri_headers) as [h|] eqn:Hh.
  - unfold getClientFromExtra. rewrite Hh.
    pose proof (truthy_getHeaderValue h "x-redmine-url") as Tu.
    pose proof (truthy_getHeaderValue h "x-redmine-api-key") as Tk.
    rewrite !truthy_getHeaderValue, !negb_involutive.
    destruct (missing_or_empty (h !! "x-redmine-url")) eqn:Hu.
    + simpl. intros [= <-]. right. exists h.
      split; [reflexivity |]. split; [now left | reflexivity].
    + destruct (missing_or_empty (h !! "x-redmine-api-key")) eqn:Hk.
      * simpl. intros [= <-]. right. exists h.
        split; [reflexivity |]. split; [now right | reflexivity].
      * revert Tu Tk.
        destruct (getHeaderValue (Some h) "x-redmine-url") as [url|];
          [| discriminate].
        destruct (getHeaderValue (Some h) "x-redmine-api-key") as [key|];
          [| discriminate].
        simpl. intros Tu Tk. unfold new_RedmineClient.
        rewrite Tu, Tk. discriminate.
  - unfold getClientFromExtra. rewrite Hh. intros [= <-].
    left. split; reflexivity.
Qed.

Lemma handler_depends_on_client (call : ToolCall) (extra1 extra2 : Extra)
    (log : list HttpRequest) :
  getClientFromExtra extra1 = getClientFromExtra extra2 ->
  registerRedmineTools call extra1 log = registerRedmineTools call extra2 log.
Proof.
  intros H. rewrite !handler_outcome.
  assert (Hbody : tool_body call extra1 log = tool_body call extra2 log).
  { destruct call; simpl;
      unfold list_projects_body, get_project_body, list_issues_body,
        get_issue_body, create_issue_body, update_issue_body, bind, lift;
      now rewrite H. }
  now rewrite Hbody.
Qed.

(** An invocation depends on its headers through the two resolved values
    only: two header mappings in which [x-redmine-url] resolve alike and
    [x-redmine-api-key] resolve alike give the same result and the same
    request, whatever other headers, further list elements or [undefined]
    entries they hold. *)
Theorem only_the_two_resolved_headers_matter
    (h1 h2 : gmap string header_value) (call : ToolCall)
    (log : list HttpRequest) :
  getHeaderValue (Some h1) "x-redmine-url"
  = getHeaderValue (Some h2) "x-redmine-url" ->
  getHeaderValue (Some h1) "x-redmine-api-key"
  = getHeaderValue (Some h2) "x-redmine-api-key" ->
  getClientFromExtra (extra_with_headers h1)
  = getClientFromExtra (extra_with_headers h2)
  /\ registerRedmineTools call (extra_with_headers h1) log
     = registerRedmineTools call (extra_with_headers h2) log.
Proof.
  intros Hu Hk.
  assert (H : getClientFromExtra (extra_with_headers h1)
              = getClientFromExtra (extra_with_headers h2)).
  { rewrite (getClientFromExtra_resolved (extra_with_headers h1) h1 eq_refl).
    rewrite (getClientFromExtra_resolved (extra_with_headers h2) h2 eq_refl).
    now rewrite Hu, Hk. }
  split; [exact H | now apply handler_depends_on_client].
Qed.

(** ** Further properties: the outcomes of a request *)

Lemma request_fetch_failure (this : RedmineClient) (method path : string)
    (body : js_value) (log : list HttpRequest) (error : js_exn) :
  network log (build_request this method path body) = Throw error ->
  request this method path body log
  = (Throw error, log ++ [build_request this method path body]).
Proof.
  intros Hnet. unfold request, bind, fetch. now rewrite Hnet.
Qed.

Lemma request_unreadable_error_body (this : RedmineClient)
    (method path : string) (body : js_value) (log : list HttpRequest)
    (response : Response) (error : js_exn) :
  network log (build_request this method path body) = Ok response ->
  ok response = false ->
  resp_body response = Throw error ->
  request this method path body log
  = (Throw error, log ++ [build_request this method path body]).
Proof.
  intros Hnet Hok Hbody.
  unfold request, bind, fetch, response_text, lift.
  now rewrite Hnet, Hok, Hbody.
Qed.

Lemma request_decodes (this : RedmineClient) (method path : string)
    (body : js_value) (log : list HttpRequest) (response : Response) :
  network log (build_request this method path body) = Ok response ->
  ok response = true ->
  status response <> 204%Z ->
  headers_get response "content-length" <> Some "0" ->
  request this method path body log
  = (match resp_body response with
     | Ok s => JSON_parse s
     | Throw error => Throw error
     end,
     log ++ [build_request this method path body]).
Proof.
  intros Hnet Hok Hstatus Hlength.
  unfold request, bind, fetch, response_json, response_text, lift.
  rewrite Hnet, Hok. simpl.
  apply Z.eqb_neq in Hstatus. rewrite Hstatus.
  rewrite bool_decide_eq_false_2 by exact Hlength. simpl.
  destruct (resp_body response); reflexivity.
Qed.

(** When [fetch] itself fails, or when the body of a response with a status
    outside 200-299 cannot be read, the invocation ends with the error
    envelope of that very failure: its message is the text, after the
    prefix, and no [Redmine API error] is reported. *)
Theorem transport_failure_surfaces_with_its_own_message
    (call : ToolCall) (extra : Extra) (log : list HttpRequest)
    (req : HttpRequest) (error : js_exn) :
  snd (registerRedmineTools call extra log) = log ++ [req] ->
  network log req = Throw error
  \/ (exists response,
        network log req = Ok response
        /\ ok response = false
        /\ resp_body response = Throw error) ->
  tool_body call extra log = (Throw error, log ++ [req])
  /\ registerRedmineTools call extra log
     = (Ok {| content := [{| type := "text";
                             text := "エラー: " +:+ error_message error |}];
              isError := Some true |},
        log ++ [req]).
Proof.
  intros Hlog Hfail.
  destruct (handler_request call extra log req Hlog)
    as (client & method & path & body & Hc & -> & Htool).
  assert (Hthrow : tool_body call extra log
                   = (Throw error,
                      log ++ [build_request client method path body])).
  { rewrite Htool. destruct Hfail as [Hnet | (response & Hnet & Hok & Hbody)].
    - now apply request_fetch_failure.
    - now apply (request_unreadable_error_body _ _ _ _ _ response). }
  split; [exact Hthrow |].
  rewrite handler_outcome, Hthrow. reflexivity.
Qed.

(** When the response has a success status other than 204 and its
    [content-length] is not [0], the invocation returns the body decoded by
    [JSON.parse] and printed again, without an error flag; when the body
    cannot be read or is not JSON, it returns the error envelope of that
    failure. *)
Theorem successful_response_is_decoded
    (call : ToolCall) (extra : Extra) (log : list HttpRequest)
    (req : HttpRequest) (response : Response) :
  snd (registerRedmineTools call extra log) = log ++ [req] ->
  network log req = Ok response ->
  ok response = true ->
  status response <> 204%Z ->
  headers_get response "content-length" <> Some "0" ->
  registerRedmineTools call extra log
  = (Ok match resp_body response with
        | Ok s =>
            match JSON_parse s with
            | Ok result =>
                {| content := [{| type := "text";
                                  text := JSON_stringify_pretty result |}];
                   isError := None |}
            | Throw error => error_response error
            end
        | Throw error => error_response error
        end,
     log ++ [req]).
Proof.
  intros Hlog Hnet Hok Hstatus Hlength.
  destruct (handler_request call extra log req Hlog)
    as (client & method & path & body & Hc & -> & Htool).
  rewrite handler_outcome, Htool.
  rewrite (request_decodes _ _ _ _ _ response Hnet Hok Hstatus Hlength).
  destruct (resp_body response) as [s|error]; [| reflexivity].
  destruct (JSON_parse s); reflexivity.
Qed.

(** ** Further properties: the request of an invocation *)

Lemma tool_body_client_call (call : ToolCall) (extra : Extra)
    (client : RedmineClient) (log : list HttpRequest) :
  getClientFromExtra extra = Ok client ->
  tool_body call extra log
  = request client (client_call call).1.1 (client_call call).1.2
      (client_call call).2 log.
Proof.
  intros Hc.
  destruct call; simpl;
    unfold list_projects_body, get_project_body, list_issues_body,
      get_issue_body, create_issue_body, update_issue_body, bind, lift;
    rewrite Hc; reflexivity.
Qed.

Lemma handler_log (call : ToolCall) (extra : Extra)
    (log : list HttpRequest) :
  snd (registerRedmineTools call extra log) = snd (tool_body call extra log).
Proof.
  rewrite handler_outcome.
  destruct (tool_body call extra log) as [[result|error] log']; reflexivity.
Qed.

Lemma handler_issued (call : ToolCall) (extra : Extra)
    (log : list HttpRequest) :
  issued (registerRedmineTools call extra) log
  = match getClientFromExtra extra with
    | Ok client =>
        [build_request client (client_call call).1.1 (client_call call).1.2
           (client_call call).2]
    | Throw _ => []
    end.
Proof.
  unfold issued. rewrite handler_log.
  destruct (getClientFromExtra extra) as [client|error] eqn:Hc.
  - rewrite (tool_body_client_call call extra client log Hc), request_log.
    apply drop_app_length.
  - rewrite (tool_body_no_client call extra error log Hc). simpl.
    apply drop_all.
Qed.

(** An invocation only adds to the log, and what it adds is one request
    when its credentials resolve and nothing when they do not. The request
    carries the resolved API key in [X-Redmine-API-Key] and goes to a path
    under the resolved base URL. *)
Theorem invocation_issues_one_request_iff_credentials_resolve
    (call : ToolCall) (extra : Extra) (log : list HttpRequest) :
  snd (registerRedmineTools call extra log)
  = log ++ issued (registerRedmineTools call extra) log
  /\ (forall client,
        getClientFromExtra extra = Ok client ->
        exists req path,
          issued (registerRedmineTools call extra) log = [req]
          /\ req_url req = baseUrl client +:+ path
          /\ req_headers req = [("X-Redmine-API-Key", apiKey client);
                                ("Content-Type", "application/json")])
  /\ (forall error,
        getClientFromExtra extra = Throw error ->
        issued (registerRedmineTools call extra) log = []).
Proof.
  split; [| split].
  - rewrite handler_issued, handler_log.
    destruct (getClientFromExtra extra) as [client|error] eqn:Hc.
    + now rewrite (tool_body_client_call call extra client log Hc),
        request_log.
    + rewrite (tool_body_no_client call extra error log Hc). simpl.
      now rewrite app_nil_r.
  - intros client Hc. rewrite handler_issued, Hc.
    do 2 eexists. split; [reflexivity |]. split; reflexivity.
  - intros error Hc. now rewrite handler_issued, Hc.
Qed.



End Server.

(** ** Further properties: invocations share nothing *)

(** The request of an invocation is determined by its tool, its arguments
    and its headers. Neither the requests issued before, nor the answers of
    the network, nor the decoder or the printer of results have a part in
    it: nothing of one invocation reaches the request of another. *)
Theorem request_depends_on_the_invocation_only
    (JSON_stringify pretty1 pretty2 : js_value -> string)
    (parse1 parse2 : string -> Result js_value)
    (network1 network2 : list HttpRequest -> HttpRequest -> Result Response)
    (call : ToolCall) (extra : Extra) (log1 log2 : list HttpRequest) :
  issued (registerRedmineTools JSON_stringify pretty1 parse1 network1
            call extra) log1
  = issued (registerRedmineTools JSON_stringify pretty2 parse2 network2
              call extra) log2.
Proof.
  rewrite (handler_issued JSON_stringify pretty1 parse1 network1 call extra
             log1).
  rewrite (handler_issued JSON_stringify pretty2 parse2 network2 call extra
             log2).
  destruct (getClientFromExtra extra) as [client | error]; reflexivity.
Qed.

(** ** The theorems at concrete inputs *)

(** C3 as first stated, for every response outside 200-299, fails on a
    response whose body cannot be read: Redmine answers 500 and the
    connection ends before the body has arrived. The client then throws the
    error of the read, [terminated], and the handler reports it; neither
    the message nor the text of the envelope holds the status code. *)
Lemma non_2xx_unreadable_body_counterexample :
  let response :=
    {| status := 500; headers := ∅;
       resp_body := Throw (JsError "terminated") |} in
  let network := answering (Ok response) in
  network [] sample_get_issue_request = Ok response
  /\ ok response = false
  /\ snd (registerRedmineTools sample_stringify sample_stringify
            sample_parse_failure network sample_get_issue sample_extra [])
     = [] ++ [sample_get_issue_request]
  /\ ~ (exists message text,
          tool_body sample_stringify sample_parse_failure network
            sample_get_issue sample_extra []
          = (Throw (JsError message), [] ++ [sample_get_issue_request])
          /\ Str.contains message (decimal (status response))
          /\ registerRedmineTools sample_stringify sample_stringify
               sample_parse_failure network sample_get_issue sample_extra []
             = (Ok {| content := [{| type := "text"; text := text |}];
                      isError := Some true |},
                [] ++ [sample_get_issue_request])
          /\ Str.contains text message)
  /\ registerRedmineTools sample_stringify sample_stringify
       sample_parse_failure network sample_get_issue sample_extra []
     = (Ok {| content := [{| type := "text";
                             text := "エラー: terminated" |}];
              isError := Some true |},
        [sample_get_issue_request]).
Proof.
  intros response network.
  split; [reflexivity |]. split; [reflexivity |].
  split; [vm_compute; reflexivity |].
  split; [| vm_compute; reflexivity].
  intros (message & text & Hbody & Hstatus & _).
  assert (Hthrown : tool_body sample_stringify sample_parse_failure network
                      sample_get_issue sample_extra []
                    = (Throw (JsError "terminated"),
                       [] ++ [sample_get_issue_request]))
    by (vm_compute; reflexivity).
  rewrite Hthrown in Hbody. injection Hbody as <-.
  apply (contains_occurs _ _ "5") in Hstatus; [| reflexivity].
  discriminate Hstatus.
Qed.

Lemma unresolved_credentials_issue_no_request_witness :
  let extra :=
    extra_with_headers
      (<["x-redmine-url" := HString "https://redmine.example.com"]> ∅) in
  credentials_unavailable extra
  /\ exists error,
       getClientFromExtra extra = Throw error
       /\ ConfigurationError error
       /\ tool_body sample_stringify sample_parse_failure
            (answering (Ok no_content)) sample_get_issue extra []
          = (Throw error, [])
       /\ registerRedmineTools sample_stringify sample_stringify
            sample_parse_failure (answering (Ok no_content))
            sample_get_issue extra []
          = (Ok (error_response error), []).
Proof.
  intros extra. split.
  - right. vm_compute. reflexivity.
  - apply (unresolved_credentials_issue_no_request
             sample_stringify sample_stringify sample_parse_failure
             (answering (Ok no_content)) sample_get_issue extra []).
    right. vm_compute. reflexivity.
Defined.

Lemma omitted_parameter_absent_from_query_witness :
  let call :=
    CallListIssues
      (Some {| li_offset := None; li_limit := Some (SafeInteger 25 eq_refl);
               li_sort := Some ""; li_include := None;
               li_project_id := Some (Str "a&offset=1");
               li_tracker_id := None; li_status_id := Some (Str "*");
               li_assigned_to_id := None |}) in
  list_call_param call "offset" = None
  /\ ~ In "offset" (query_param_names (list_call_path call)).
Proof.
  intros call. split.
  - reflexivity.
  - apply (omitted_parameter_absent_from_query call "offset"). reflexivity.
Defined.

Lemma non_2xx_response_becomes_error_envelope_witness :
  let network := answering (Ok unprocessable) in
  let run :=
    registerRedmineTools sample_stringify sample_stringify
      sample_parse_failure network sample_get_issue sample_extra [] in
  let message := "Redmine API error: 422 - Subject cannot be blank" in
  snd run = [] ++ [sample_get_issue_request]
  /\ network [] sample_get_issue_request = Ok unprocessable
  /\ ok unprocessable = false
  /\ resp_body unprocessable = Ok "Subject cannot be blank"
  /\ exists text,
       run = (Ok {| content := [{| type := "text"; text := text |}];
                    isError := Some true |},
              [] ++ [sample_get_issue_request])
       /\ Str.contains text message.
Proof.
  intros network run message.
  assert (Hlog : snd run = [] ++ [sample_get_issue_request])
    by (vm_compute; reflexivity).
  split; [exact Hlog |]. split; [reflexivity |].
  split; [reflexivity |]. split; [reflexivity |].
  apply (non_2xx_response_becomes_error_envelope
           sample_stringify sample_stringify sample_parse_failure network
           sample_get_issue sample_extra [] sample_get_issue_request
           unprocessable "Subject cannot be blank" Hlog);
    reflexivity.
Defined.

Lemma base_url_loses_one_trailing_slash_witness :
  host_string "redmine.example.com" = true
  /\ truthy "secret" = true
  /\ new_RedmineClient "https://redmine.example.com/" "secret"
     = Ok sample_client
  /\ new_RedmineClient "https://redmine.example.com" "secret"
     = Ok sample_client
  /\ map req_url
       (snd (listIssues sample_stringify sample_parse_failure
               (answering (Ok no_content)) sample_client None []))
     = ["https://redmine.example.com/issues.json"].
Proof.
  pose proof (base_url_loses_one_trailing_slash
                sample_stringify sample_parse_failure
                (answering (Ok no_content))
                "redmine.example.com" "secret" eq_refl eq_refl)
    as (_ & _ & Hwith & Hwithout & Hlist & _).
  split; [reflexivity |]. split; [reflexivity |].
  split; [exact Hwith |]. split; [exact Hwithout |].
  exact (Hlist []).
Defined.

Lemma no_content_response_gives_empty_object_witness :
  let network := answering (Ok no_content) in
  let body := JObj [("issue", JObj [("notes", JStr "done")])] in
  let req := build_request sample_stringify sample_client "PUT"
               "/issues/7.json" body in
  network [] req = Ok no_content
  /\ ok no_content = true
  /\ (status no_content = 204%Z
      \/ headers_get no_content "content-length" = Some "0")
  /\ request sample_stringify sample_parse_failure network sample_client
       "PUT" "/issues/7.json" body []
     = (Ok (JObj []), [] ++ [req]).
Proof.
  intros network body req.
  split; [reflexivity |]. split; [reflexivity |].
  split; [left; reflexivity |].
  apply (no_content_response_gives_empty_object
           sample_stringify sample_stringify sample_parse_failure network
           sample_client "PUT" "/issues/7.json" body [] no_content);
    [reflexivity | reflexivity | left; reflexivity].
Defined.

Lemma handler_errors_never_escape_witness :
  let network := answering (Throw (JsError "fetch failed")) in
  tool_body sample_stringify sample_parse_failure network
    sample_get_issue sample_extra []
  = (Throw (JsError "fetch failed"), [sample_get_issue_request])
  /\ exists text,
       registerRedmineTools sample_stringify sample_stringify
         sample_parse_failure network sample_get_issue sample_extra []
       = (Ok {| content := [{| type := "text"; text := text |}];
                isError := Some true |},
          [sample_get_issue_request])
       /\ Str.contains text "fetch failed".
Proof.
  intros network.
  assert (Hthrow : tool_body sample_stringify sample_parse_failure network
                     sample_get_issue sample_extra []
                   = (Throw (JsError "fetch failed"),
                      [sample_get_issue_request]))
    by (vm_compute; reflexivity).
  split; [exact Hthrow |].
  exact (proj1 (proj2 (handler_errors_never_escape
                         sample_stringify sample_stringify
                         sample_parse_failure network sample_get_issue
                         sample_extra []))
           (JsError "fetch failed") [sample_get_issue_request] Hthrow).
Defined.

Lemma header_list_resolves_to_first_element_witness :
  sample_headers !! "x-redmine-api-key" = Some (HArray ["secret"; "other"])
  /\ getHeaderValue (Some sample_headers) "x-redmine-api-key" = Some "secret".
Proof.
  assert (H : sample_headers !! "x-redmine-api-key"
              = Some (HArray ["secret"; "other"]))
    by (vm_compute; reflexivity).
  split; [exact H |].
  exact (proj1 (proj2 (header_list_resolves_to_first_element
                         sample_headers "x-redmine-api-key"))
           "secret" ["other"] H).
Defined.

Lemma empty_list_header_is_an_absent_header_witness :
  let key := "x-redmine-url" in
  let network := answering (Ok no_content) in
  (key = "x-redmine-url" \/ key = "x-redmine-api-key")
  /\ getHeaderValue (Some (<[key := HArray []]> sample_headers)) key = None
  /\ registerRedmineTools sample_stringify sample_stringify
       sample_parse_failure network sample_get_issue
       (extra_with_headers (delete key sample_headers)) []
     = registerRedmineTools sample_stringify sample_stringify
         sample_parse_failure network sample_get_issue
         (extra_with_headers (<[key := HArray []]> sample_headers)) [].
Proof.
  intros key network.
  pose proof (empty_list_header_is_an_absent_header
                sample_stringify sample_stringify sample_parse_failure
                network sample_headers key sample_get_issue []
                (or_introl eq_refl))
    as (Hvalue & _ & _ & _ & _ & Hsame).
  split; [left; reflexivity |].
  split; [exact Hvalue | exact Hsame].
Defined.

(** ** The model on small inputs *)

Example listIssues_path_encodes_values :
  listIssues_path
    (Some {| li_offset := None; li_limit := Some (SafeInteger 25 eq_refl);
             li_sort := Some "updated_on:desc"; li_include := None;
             li_project_id := Some (Str "a&offset=1");
             li_tracker_id := Some (Num (SafeInteger 3 eq_refl)); li_status_id := Some (Str "*");
             li_assigned_to_id := Some (Str "me") |})
  = "/issues.json?limit=25&sort=updated_on%3Adesc&project_id=a%26offset%3D1"
    +:+ "&tracker_id=3&status_id=*&assigned_to_id=me".
Proof. reflexivity. Qed.

Example listProjects_path_without_parameters :
  listProjects_path None = "/projects.json"
  /\ listProjects_path
       (Some {| lp_offset := None; lp_limit := None; lp_include := None |})
     = "/projects.json".
Proof. split; reflexivity. Qed.

Example getProject_path_keeps_the_identifier :
  getProject_path (Str "my-project") (Some "trackers,issue_categories")
  = "/projects/my-project.json?include=trackers%2Cissue_categories"
  /\ getProject_path (Num (SafeInteger 12 eq_refl)) None = "/projects/12.json".
Proof. split; reflexivity. Qed.

Example set_overwrites_the_first_pair :
  URLSearchParams.set [("a", "1"); ("b", "2"); ("a", "3")] "a" "4"
  = [("a", "4"); ("b", "2")].
Proof. reflexivity. Qed.

Example parse_reads_a_query :
  URLSearchParams.parse "limit=25&sort=updated_on%3Adesc&&q=a+b&flag"
  = [("limit", "25"); ("sort", "updated_on:desc"); ("q", "a b");
     ("flag", "")].
Proof. reflexivity. Qed.

Example replace_trailing_slash_removes_one_slash_only :
  replace_trailing_slash "https://redmine.example.com//"
  = "https://redmine.example.com/"
  /\ replace_trailing_slash "https://redmine.example.com/redmine"
     = "https://redmine.example.com/redmine".
Proof. split; reflexivity. Qed.

(** Outside host names the two spellings differ: with an empty host the
    string [https://] itself ends with a slash, which the constructor
    removes. *)
Example empty_host_is_not_a_host_name :
  host_string "" = false
  /\ new_RedmineClient "https://" "secret"
     = Ok {| baseUrl := "https:/"; apiKey := "secret" |}.
Proof. split; reflexivity. Qed.

Example constructor_rejects_empty_arguments :
  new_RedmineClient "" "secret"
  = Throw (JsError "Redmine URL is not configured. Set x-redmine-url header.")
  /\ new_RedmineClient "https://redmine.example.com" ""
     = Throw (JsError
         "Redmine API Key is not configured. Set x-redmine-api-key header.").
Proof. split; reflexivity. Qed.

Example sample_invocation_resolves_its_credentials :
  getClientFromExtra sample_extra = Ok sample_client.
Proof. vm_compute. reflexivity. Qed.

Example successful_invocation_returns_the_decoded_result :
  let network :=
    answering (Ok {| status := 200; headers := ∅; resp_body := Ok "7" |}) in
  registerRedmineTools sample_stringify (fun _ => "7")
    (fun _ => Ok (JNum (SafeInteger 7 eq_refl))) network sample_get_issue sample_extra []
  = (Ok {| content := [{| type := "text"; text := "7" |}];
           isError := None |},
     [sample_get_issue_request]).
Proof. vm_compute. reflexivity. Qed.

(** ** The further properties at concrete inputs *)

Lemma getProject_query_read_back_witness :
  Str.occurs "?" (String_of (Str "my-project")) = false
  /\ Str.occurs "#" (String_of (Str "my-project")) = false
  /\ query_params (getProject_path (Str "my-project") (Some "trackers"))
     = [("include", "trackers")].
Proof.
  split; [reflexivity |]. split; [reflexivity |].
  apply (getProject_query_read_back (Str "my-project") (Some "trackers"));
    reflexivity.
Defined.

Lemma getProject_identifier_is_not_encoded_witness :
  Str.occurs "?" "demo" = false
  /\ Str.occurs "#" "demo" = false
  /\ Str.occurs "#" "key=1" = false
  /\ path_query (getProject_path (Str "demo?key=1") (Some "trackers"))
     = "key=1.json?include=trackers".
Proof.
  split; [reflexivity |]. split; [reflexivity |]. split; [reflexivity |].
  apply (getProject_identifier_is_not_encoded "demo" "key=1"
           (Some "trackers")); reflexivity.
Defined.

Lemma constructor_accepts_non_empty_arguments_witness :
  new_RedmineClient "https://redmine.example.com/" "secret" = Ok sample_client
  /\ "https://redmine.example.com/" <> ""
  /\ apiKey sample_client = "secret".
Proof.
  assert (H : new_RedmineClient "https://redmine.example.com/" "secret"
              = Ok sample_client) by reflexivity.
  split; [exact H |].
  destruct (proj1 (proj1 (constructor_accepts_non_empty_arguments
                            "https://redmine.example.com/" "secret"
                            sample_client)) H)
    as (Hurl & _ & Hkey & _).
  split; [exact Hurl | exact Hkey].
Defined.

Lemma base_url_is_empty_for_a_lone_slash_witness :
  new_RedmineClient "/" "secret" = Ok {| baseUrl := ""; apiKey := "secret" |}
  /\ req_url (build_request sample_stringify
                {| baseUrl := ""; apiKey := "secret" |}
                "GET" "/issues.json" JUndefined)
     = "/issues.json".
Proof.
  assert (H : new_RedmineClient "/" "secret"
              = Ok {| baseUrl := ""; apiKey := "secret" |}) by reflexivity.
  split; [exact H |].
  exact (proj2 (base_url_is_empty_for_a_lone_slash sample_stringify
                  "/" "secret" {| baseUrl := ""; apiKey := "secret" |} H)
           eq_refl "GET" "/issues.json" JUndefined).
Defined.

Lemma credentials_resolve_iff_witness :
  getClientFromExtra sample_extra = Ok sample_client
  /\ exists h url key,
       requestInfo sample_extra ≫= ri_headers = Some h
       /\ getHeaderValue (Some h) "x-redmine-url" = Some url
       /\ getHeaderValue (Some h) "x-redmine-api-key" = Some key
       /\ url <> "" /\ key <> ""
       /\ sample_client
          = {| baseUrl := replace_trailing_slash url; apiKey := key |}.
Proof.
  assert (H : getClientFromExtra sample_extra = Ok sample_client)
    by (vm_compute; reflexivity).
  split; [exact H |].
  exact (proj1 (credentials_resolve_iff sample_extra sample_client) H).
Defined.

Lemma resolver_errors_are_its_own_witness :
  let extra := extra_with_headers (<["x-redmine-url" := HString "/"]> ∅) in
  let error :=
    JsError
      ("Redmine configuration not found. " +:+
       "Set x-redmine-url and x-redmine-api-key headers in your request.") in
  getClientFromExtra extra = Throw error
  /\ ((requestInfo extra ≫= ri_headers = None
       /\ error = JsError "Request headers not available")
      \/ (exists h,
            requestInfo extra ≫= ri_headers = Some h
            /\ (missing_or_empty (h !! "x-redmine-url") = true
                \/ missing_or_empty (h !! "x-redmine-api-key") = true)
            /\ error
               = JsError
                   ("Redmine configuration not found. " +:+
                    "Set x-redmine-url and x-redmine-api-key headers in your request."))).
Proof.
  intros extra error.
  assert (H : getClientFromExtra extra = Throw error)
    by (vm_compute; reflexivity).
  split; [exact H |].
  exact (resolver_errors_are_its_own extra error H).
Defined.

Lemma only_the_two_resolved_headers_matter_witness :
  let h1 : gmap string header_value :=
    <["x-redmine-url" := HString "https://redmine.example.com/"]>
      (<["x-redmine-api-key" := HString "secret"]>
         (<["authorization" := HString "Bearer token"]> ∅)) in
  getHeaderValue (Some h1) "x-redmine-url"
  = getHeaderValue (Some sample_headers) "x-redmine-url"
  /\ getHeaderValue (Some h1) "x-redmine-api-key"
     = getHeaderValue (Some sample_headers) "x-redmine-api-key"
  /\ registerRedmineTools sample_stringify sample_stringify
       sample_parse_as_string (answering (Ok found)) sample_get_issue
       (extra_with_headers h1) []
     = registerRedmineTools sample_stringify sample_stringify
         sample_parse_as_string (answering (Ok found)) sample_get_issue
         (extra_with_headers sample_headers) [].
Proof.
  intros h1.
  assert (Hu : getHeaderValue (Some h1) "x-redmine-url"
               = getHeaderValue (Some sample_headers) "x-redmine-url")
    by (vm_compute; reflexivity).
  assert (Hk : getHeaderValue (Some h1) "x-redmine-api-key"
               = getHeaderValue (Some sample_headers) "x-redmine-api-key")
    by (vm_compute; reflexivity).
  split; [exact Hu |]. split; [exact Hk |].
  exact (proj2 (only_the_two_resolved_headers_matter
                  sample_stringify sample_stringify sample_parse_as_string
                  (answering (Ok found)) h1 sample_headers sample_get_issue
                  [] Hu Hk)).
Defined.

Lemma transport_failure_surfaces_with_its_own_message_witness :
  let network := answering (Throw (JsError "fetch failed")) in
  let run :=
    registerRedmineTools sample_stringify sample_stringify
      sample_parse_failure network sample_get_issue sample_extra [] in
  snd run = [] ++ [sample_get_issue_request]
  /\ network [] sample_get_issue_request = Throw (JsError "fetch failed")
  /\ run = (Ok {| content := [{| type := "text";
                                 text := "エラー: fetch failed" |}];
                  isError := Some true |},
            [] ++ [sample_get_issue_request]).
Proof.
  intros network run.
  assert (Hlog : snd run = [] ++ [sample_get_issue_request])
    by (vm_compute; reflexivity).
  split; [exact Hlog |]. split; [reflexivity |].
  exact (proj2 (transport_failure_surfaces_with_its_own_message
                  sample_stringify sample_stringify sample_parse_failure
                  network sample_get_issue sample_extra []
                  sample_get_issue_request (JsError "fetch failed")
                  Hlog (or_introl eq_refl))).
Defined.

Lemma successful_response_is_decoded_witness :
  let network := answering (Ok found) in
  let run :=
    registerRedmineTools sample_stringify sample_stringify
      sample_parse_as_string network sample_get_issue sample_extra [] in
  snd run = [] ++ [sample_get_issue_request]
  /\ network [] sample_get_issue_request = Ok found
  /\ ok found = true
  /\ status found <> 204%Z
  /\ headers_get found "content-length" <> Some "0"
  /\ run = (Ok {| content := [{| type := "text"; text := "{}" |}];
                  isError := None |},
            [] ++ [sample_get_issue_request]).
Proof.
  intros network run.
  assert (Hlog : snd run = [] ++ [sample_get_issue_request])
    by (vm_compute; reflexivity).
  assert (Hstatus : status found <> 204%Z) by (simpl; lia).
  assert (Hlength : headers_get found "content-length" <> Some "0")
    by (vm_compute; discriminate).
  split; [exact Hlog |]. split; [reflexivity |]. split; [reflexivity |].
  split; [exact Hstatus |]. split; [exact Hlength |].
  exact (successful_response_is_decoded
           sample_stringify sample_stringify sample_parse_as_string network
           sample_get_issue sample_extra [] sample_get_issue_request found
           Hlog eq_refl eq_refl Hstatus Hlength).
Defined.

Lemma invocation_issues_one_request_iff_credentials_resolve_witness :
  getClientFromExtra sample_extra = Ok sample_client
  /\ exists req path,
       issued (registerRedmineTools sample_stringify sample_stringify
                 sample_parse_as_string (answering (Ok found))
                 sample_get_issue sample_extra) []
       = [req]
       /\ req_url req = baseUrl sample_client +:+ path
       /\ req_headers req = [("X-Redmine-API-Key", apiKey sample_client);
                             ("Content-Type", "application/json")].
Proof.
  assert (H : getClientFromExtra sample_extra = Ok sample_client)
    by (vm_compute; reflexivity).
  split; [exact H |].
  exact (proj1 (proj2 (invocation_issues_one_request_iff_credentials_resolve
                         sample_stringify sample_stringify
                         sample_parse_as_string (answering (Ok found))
                         sample_get_issue sample_extra []))
           sample_client H).
Defined.


(** ** Numbers on small inputs *)

Example String_number_writes_numbers_as_JavaScript_does :
  String_number zero = "0"
  /\ String_number (SafeInteger (-3) eq_refl) = "-3"
  /\ String_number (SafeInteger 9007199254740991 eq_refl)
     = "9007199254740991"
  /\ String_number (OtherNumber "1e+21" eq_refl) = "1e+21"
  /\ String_number (OtherNumber "1.5" eq_refl) = "1.5".
Proof. repeat split; reflexivity. Qed.

Example listProjects_path_encodes_an_exponent :
  listProjects_path
    (Some {| lp_offset := Some (OtherNumber "1e+21" eq_refl);
             lp_limit := Some (OtherNumber "1.5" eq_refl);
             lp_include := None |})
  = "/projects.json?offset=1e%2B21&limit=1.5"
  /\ query_params
       (listProjects_path
          (Some {| lp_offset := Some (OtherNumber "1e+21" eq_refl);
                   lp_limit := Some (OtherNumber "1.5" eq_refl);
                   lp_include := None |}))
     = [("offset", "1e+21"); ("limit", "1.5")].
Proof. split; reflexivity. Qed.

Example updateIssue_path_of_a_large_number :
  updateIssue_path (OtherNumber "1e+21" eq_refl) = "/issues/1e+21.json"
  /\ getIssue_path (SafeInteger 7 eq_refl) (Some "journals")
     = "/issues/7.json?include=journals".
Proof. split; reflexivity. Qed.
